(** * The multi-core Fibonacci benchmark (benchmark.js)

    A shallow embedding of the benchmark's main-thread logic: the work unit
    [calculateFibonacci], the memory formatter [getMemoryUsage], the system
    probe [getSystemInfo], the event handlers of one timed run
    ([runSingleBenchmark]) and the sequencing and aggregation of runs
    ([runAllBenchmarks]); of its start-up ([parseArguments],
    [loadConfigFile] and the merge of the two); and of the worker thread
    ([workerLoop]).

    Data representation.
    - A JavaScript Number that takes part in real-valued arithmetic is a
      primitive binary64 [float]; its operations are the IEEE 754 ones of
      [PrimFloat], which is what the JavaScript engine computes.
    - A Number that only ever holds an integer (a counter, a byte count, an
      array length, a run number) is a [Z]; it enters floating-point
      arithmetic through [Z2F], which is exact up to 2^53.
    - A BigInt is a [Z].
    - The runtime (workers, timers, the memory probe, the clock) is the
      environment: it appears as the list of events delivered to the main
      thread during a run. *)

From Stdlib Require Import ZArith List Floats Lia Bool String.
Import ListNotations.
Open Scope Z_scope.

(** ** JavaScript Number helpers *)

(** Number(z) for an integer z: the nearest binary64 value, ties to even. *)
Definition Z2F (z : Z) : float := SF2Prim (binary_normalize prec emax z 0 false).

Definition signed (s : bool) (m : positive) : Z := cond_Zopp s (Zpos m).

(** Math.round: the nearest integer, a tie going towards +Infinity; NaN,
    the infinities, the zeros and integers are returned unchanged. *)
Definition Math_round (x : float) : float :=
  match Prim2SF x with
  | S754_finite s m e =>
      if 0 <=? e then x
      else
        let n := Z.shiftr (2 * signed s m + 2 ^ (- e)) (- e + 1) in
        if n =? 0 then SF2Prim (S754_zero s) else Z2F n
  | _ => x
  end.

(** Math.floor. *)
Definition Math_floor (x : float) : float :=
  match Prim2SF x with
  | S754_finite s m e =>
      if 0 <=? e then x
      else
        let n := Z.shiftr (signed s m) (- e) in
        if n =? 0 then SF2Prim (S754_zero s) else Z2F n
  | _ => x
  end.

(** The numeric texts the program produces and parses again. *)
Inductive numeral : Type :=
| Fixed2 (negative : bool) (hundredths : Z)
    (* the digits written by toFixed(2): hundredths / 100 with two decimals *)
| Whole (n : Z)
    (* an integer-valued Number interpolated into a template *)
| Literal (x : float).
    (* NaN, Infinity or exponent notation: a text that reads back as x *)

(** x.toFixed(2): the integer count of hundredths nearest to the exact value
    of x, the larger one on a tie; magnitudes from 1e21 on and non-finite
    values are printed as by String(x). *)
Definition toFixed2 (x : float) : numeral :=
  match Prim2SF x with
  | S754_zero _ => Fixed2 false 0
  | S754_finite s m e =>
      if (1e21 <=? abs x)%float then Literal x
      else if 0 <=? e then Fixed2 s (100 * Zpos m * 2 ^ e)
      else Fixed2 s (Z.shiftr (2 * (100 * Zpos m) + 2 ^ (- e)) (- e + 1))
  | _ => Literal x
  end.

(** parseFloat on such a text.  A count of hundredths below 2^53 is
    converted exactly, so the quotient by 100 is the correctly rounded
    decimal. *)
Definition parseFloat (t : numeral) : float :=
  match t with
  | Fixed2 negative n =>
      if negative then (- (Z2F n / 100))%float else (Z2F n / 100)%float
  | Whole n => Z2F n
  | Literal x => x
  end.

(** Math.max(...xs) and Math.min(...xs): the empty argument list gives
    -Infinity and +Infinity, a NaN argument gives NaN. *)
Definition max2 (highest number : float) : float :=
  if is_nan highest then highest
  else if is_nan number then number
  else if is_zero number && is_zero highest && negb (get_sign number) then number
  else if (highest <? number)%float then number
  else highest.

Definition min2 (lowest number : float) : float :=
  if is_nan lowest then lowest
  else if is_nan number then number
  else if is_zero number && is_zero lowest && get_sign number then number
  else if (number <? lowest)%float then number
  else lowest.

Definition Math_max (xs : list float) : float := fold_left max2 xs neg_infinity.
Definition Math_min (xs : list float) : float := fold_left min2 xs infinity.

(** A value that JSON.stringify writes as a number: not NaN, not infinite. *)
Definition is_reportable (x : float) : bool := is_finite x.

(** ** The work unit *)

(** The body of [for (let i = 2; i <= n; i++)]: [fuel] bounds the number of
    times the loop test is evaluated, [None] means the bound was too low. *)
Fixpoint fib_loop (fuel : nat) (n i a b : Z) : option Z :=
  match fuel with
  | O => None
  | S fuel' =>
      if i <=? n then
        let temp := a + b in
        fib_loop fuel' n (i + 1) b temp
      else Some b
  end.

(** calculateFibonacci(n) for an integer index; BigInt(n) is n itself.  The
    index and the loop counter are integer-valued Numbers, on which [<=] and
    [i++] are exact below 2^53. *)
Definition calculateFibonacci (fuel : nat) (n : Z) : option Z :=
  if n <=? 1 then Some n
  else fib_loop fuel n 2 0 1.

(** The standard Fibonacci sequence, for reference. *)
Fixpoint fib (k : nat) : Z :=
  match k with
  | O => 0
  | S k' =>
      match k' with
      | O => 1
      | S k'' => fib k' + fib k''
      end
  end.

(** ** Memory readings *)

(** process.memoryUsage(): byte counts. *)
Record MemoryReading : Type := {
  rss : Z;
  heapTotal : Z;
  heapUsed : Z;
  external : Z;
  arrayBuffers : Z
}.

Inductive unit_suffix : Type := B | KB | MB | GB.

(** The text [`${figure} ${suffix}`]; [split(' ')[0]] is [figure]. *)
Record formatted : Type := {
  figure : numeral;
  suffix : unit_suffix
}.

Definition formatBytes (bytes : Z) : formatted :=
  if bytes >=? 1024 * 1024 * 1024 then
    {| figure := toFixed2 (Z2F bytes / (1024 * 1024 * 1024))%float; suffix := GB |}
  else if bytes >=? 1024 * 1024 then
    {| figure := toFixed2 (Z2F bytes / (1024 * 1024))%float; suffix := MB |}
  else if bytes >=? 1024 then
    {| figure := toFixed2 (Z2F bytes / 1024)%float; suffix := KB |}
  else
    {| figure := Whole bytes; suffix := B |}.

Record MemoryUsage : Type := {
  mu_rss : formatted;
  mu_heapUsed : formatted;
  mu_heapTotal : formatted;
  mu_external : formatted;
  mu_arrayBuffers : formatted
}.

(** getMemoryUsage(); [usage] is the reading its call of
    process.memoryUsage() returns. *)
Definition getMemoryUsage (usage : MemoryReading) : MemoryUsage :=
  {| mu_rss := formatBytes (rss usage);
     mu_heapUsed := formatBytes (heapUsed usage);
     mu_heapTotal := formatBytes (heapTotal usage);
     mu_external := formatBytes (external usage);
     mu_arrayBuffers := formatBytes (arrayBuffers usage) |}.

(** ** System information *)

Record CpuEntry : Type := { cpu_entry_model : string }.

Record CpuInfo : Type := { model : string; cores : Z }.

Record SystemInfo : Type := {
  hostname : string;
  cpu : CpuInfo;
  ram : formatted
}.

(** getSystemInfo(); the arguments are what os.hostname(), os.cpus() and
    os.totalmem() return. *)
Definition getSystemInfo (os_hostname : string) (cpus : list CpuEntry)
    (totalMemoryBytes : Z) : SystemInfo :=
  {| hostname := os_hostname;
     cpu := {| model := match cpus with
                        | c :: _ => cpu_entry_model c
                        | [] => "N/A"%string
                        end;
               cores := Z.of_nat (List.length cpus) |};
     ram := {| figure := toFixed2 (Z2F totalMemoryBytes / (1024 * 1024 * 1024))%float;
               suffix := GB |} |}.

(** ** One timed run *)

(** The merged configuration (finalConfig). *)
Record Config : Type := {
  duration : Z;
  maxRamMB : option Z;
  runs : Z
}.

(** A worker's message: [{ fibIndex: 1, lastFibonacciNumber: text }].  The
    text is the decimal form of a BigInt, which BigInt(text) reads back
    exactly, so the field holds the integer. *)
Record WorkerReport : Type := {
  fibIndex : Z;
  lastFibonacciNumber : Z
}.

(** What the event loop delivers to the main thread during a run.  A worker
    that throws is reported by 'error' and, once it has stopped, by 'exit'
    with a nonzero code; a worker that only stops is reported by 'exit'.
    Workers terminated by the timer callback exit after that callback has
    returned. *)
Inductive event : Type :=
| message (workerId : nat) (data : WorkerReport)
    (* worker.on('message') *)
| error (workerId : nat)
    (* worker.on('error'): the worker threw *)
| exit (workerId : nat) (code : Z)
    (* worker.on('exit'): the worker stopped *)
| memoryCheck (currentMemory : MemoryReading) (again : MemoryReading)
    (* the setInterval callback; [currentMemory] is its own reading and
       [again] the one getMemoryUsage() takes if the peak is replaced *)
| timer (endTime : Z) (finalMemory : MemoryReading) (timestamp : string).
    (* the setTimeout callback; [endTime] is process.hrtime.bigint() *)

(** The environment of one run.  [entered] is the monotonic clock at the
    moment runSingleBenchmark is called; the program does not read it. *)
Record RunInput : Type := {
  entered : Z;
  firstUsage : MemoryReading;
  firstRSS : MemoryReading;
  events : list event
}.

Record RunConfiguration : Type := {
  benchmarkDurationMs : Z;
  rc_maxRamMB : option Z;
  actualDurationMs : float
}.

Record PerformanceMetrics : Type := {
  calculationsPerSecond : float;
  coreEfficiency : float;
  memoryEfficiency : float;
  overallScore : float
}.

Record RunResult : Type := {
  runNumber : Z;
  rr_timestamp : string;
  rr_hostname : string;
  cpuModel : string;
  cpuCores : Z;
  totalRAM : formatted;
  configuration : RunConfiguration;
  totalFibonacciIndex : Z;
  averageFibonacciIndexPerCore : float;
  rr_lastFibonacciNumber : Z;
  activeWorkersAtEnd : Z;
  performanceMetrics : PerformanceMetrics;
  peakMemory : MemoryUsage;
  finalMemory : MemoryUsage
}.

(** The value the run's promise is resolved with. *)
Inductive outcome : Type :=
| Failed (reason : string)
    (* { error: 'RAM_LIMIT_EXCEEDED' } *)
| Completed (runResult : RunResult).

(** The variables of the closure of runSingleBenchmark. *)
Record RunState : Type := {
  workers : list nat;
  totalFibIndex : Z;
  maxFibNumber : Z;
  activeWorkers : Z;
  peakMemoryUsage : MemoryUsage;
  peakRSSBytes : Z
}.

Section MainThread.

Variable finalConfig : Config.
Variable systemInfo : SystemInfo.
(** [process.hrtime.bigint()] read once, before the first run. *)
Variable startTime : Z.

Definition BENCHMARK_DURATION_MS : Z := duration finalConfig * 1000.
Definition MAX_RAM_MB : option Z := maxRamMB finalConfig.
Definition numCores : Z := cores (cpu systemInfo).

(** [for (let i = 0; i < numCores; i++) workers.push(new Worker(...))] *)
Definition spawnWorkers : list nat := seq 0 (Z.to_nat numCores).

Definition initialState (input : RunInput) : RunState :=
  {| workers := spawnWorkers;
     totalFibIndex := 0;
     maxFibNumber := 0;
     activeWorkers := numCores;
     peakMemoryUsage := getMemoryUsage (firstUsage input);
     peakRSSBytes := rss (firstRSS input) |}.

Definition onMessage (st : RunState) (data : WorkerReport) : RunState :=
  let currentFibNumber := lastFibonacciNumber data in
  {| workers := workers st;
     totalFibIndex := totalFibIndex st + fibIndex data;
     maxFibNumber := if currentFibNumber >? maxFibNumber st
                     then currentFibNumber else maxFibNumber st;
     activeWorkers := activeWorkers st;
     peakMemoryUsage := peakMemoryUsage st;
     peakRSSBytes := peakRSSBytes st |}.

(** Both the 'error' and the 'exit' handler run [activeWorkers--]. *)
Definition decrementActive (st : RunState) : RunState :=
  {| workers := workers st;
     totalFibIndex := totalFibIndex st;
     maxFibNumber := maxFibNumber st;
     activeWorkers := activeWorkers st - 1;
     peakMemoryUsage := peakMemoryUsage st;
     peakRSSBytes := peakRSSBytes st |}.

Definition onError (st : RunState) : RunState := decrementActive st.
Definition onExit (st : RunState) (code : Z) : RunState := decrementActive st.

Definition overLimit (currentRSS : Z) : bool :=
  match MAX_RAM_MB with
  | Some limit => currentRSS >? limit * 1024 * 1024
  | None => false
  end.

(** The memory monitor: either the promise is resolved with the error, or
    the peak is updated. *)
Definition onMemoryCheck (st : RunState) (currentMemory again : MemoryReading)
    : RunState + outcome :=
  let currentRSS := rss currentMemory in
  if overLimit currentRSS then inr (Failed "RAM_LIMIT_EXCEEDED")
  else if currentRSS >? peakRSSBytes st then
    inl {| workers := workers st;
           totalFibIndex := totalFibIndex st;
           maxFibNumber := maxFibNumber st;
           activeWorkers := activeWorkers st;
           peakMemoryUsage := getMemoryUsage again;
           peakRSSBytes := currentRSS |}
  else inl st.

(** The derived metrics, as written in the timer callback. *)
Definition elapsedMs (endTime : Z) : float :=
  let durationNs := endTime - startTime in
  (Z2F durationNs / 1000000)%float.

Definition avgFibIndexOf (totalFibIndex : Z) : float :=
  Math_floor (Z2F totalFibIndex / Z2F numCores)%float.

Definition calculationsPerSecondOf (totalFibIndex : Z) (durationMs : float) : float :=
  Math_round (Z2F totalFibIndex / (durationMs / 1000))%float.

Definition coreEfficiencyOf (totalFibIndex : Z) : float :=
  Math_round ((Z2F totalFibIndex / Z2F numCores)
              / (Z2F totalFibIndex / Z2F numCores) * 100)%float.

Definition memoryEfficiencyOf (totalFibIndex : Z) (peak : MemoryUsage) : float :=
  Math_round ((Z2F totalFibIndex / parseFloat (figure (mu_rss peak))) * 1000)%float.

Definition overallScoreOf (calculationsPerSecond coreEfficiency memoryEfficiency : float)
    : float :=
  Math_round (calculationsPerSecond * (coreEfficiency / 100)
              * (memoryEfficiency / 1000))%float.

Definition deriveMetrics (totalFibIndex : Z) (durationMs : float) (peak : MemoryUsage)
    : PerformanceMetrics :=
  let cps := calculationsPerSecondOf totalFibIndex durationMs in
  let ce := coreEfficiencyOf totalFibIndex in
  let me := memoryEfficiencyOf totalFibIndex peak in
  {| calculationsPerSecond := cps;
     coreEfficiency := ce;
     memoryEfficiency := me;
     overallScore := overallScoreOf cps ce me |}.

(** The setTimeout callback: the run result. *)
Definition onTimer (runNumber : Z) (st : RunState) (endTime : Z)
    (finalMemory : MemoryReading) (timestamp : string) : RunResult :=
  let durationMs := elapsedMs endTime in
  {| runNumber := runNumber;
     rr_timestamp := timestamp;
     rr_hostname := hostname systemInfo;
     cpuModel := model (cpu systemInfo);
     cpuCores := cores (cpu systemInfo);
     totalRAM := ram systemInfo;
     configuration :=
       {| benchmarkDurationMs := BENCHMARK_DURATION_MS;
          rc_maxRamMB := MAX_RAM_MB;
          actualDurationMs := parseFloat (toFixed2 durationMs) |};
     totalFibonacciIndex := totalFibIndex st;
     averageFibonacciIndexPerCore := avgFibIndexOf (totalFibIndex st);
     rr_lastFibonacciNumber := maxFibNumber st;
     activeWorkersAtEnd := activeWorkers st;
     performanceMetrics :=
       deriveMetrics (totalFibIndex st) durationMs (peakMemoryUsage st);
     peakMemory := peakMemoryUsage st;
     finalMemory := getMemoryUsage finalMemory |}.

(** One event: the closure's new state, or the value the promise is
    resolved with. *)
Definition handle (runNumber : Z) (st : RunState) (ev : event) : RunState + outcome :=
  match ev with
  | message _ data => inl (onMessage st data)
  | error _ => inl (onError st)
  | exit _ code => inl (onExit st code)
  | memoryCheck currentMemory again => onMemoryCheck st currentMemory again
  | timer endTime finalMemory timestamp =>
      inr (Completed (onTimer runNumber st endTime finalMemory timestamp))
  end.

(** Events are handled in order until the promise is resolved; [None] is a
    promise that is still pending when the events end. *)
Fixpoint dispatch (runNumber : Z) (st : RunState) (evs : list event)
    : option outcome :=
  match evs with
  | [] => None
  | ev :: rest =>
      match handle runNumber st ev with
      | inr result => Some result
      | inl st' => dispatch runNumber st' rest
      end
  end.

Definition runSingleBenchmark (runNumber : Z) (input : RunInput) : option outcome :=
  dispatch runNumber (initialState input) (events input).

(** ** The sequence of runs *)

Record BenchmarkInfo : Type := {
  totalRuns : Z;
  completedRuns : Z;
  totalDurationMs : float
}.

Record AggregatedResults : Type := {
  totalCalculations : Z;
  averageCalculationsPerRun : float;
  averageScore : float;
  bestScore : float;
  worstScore : float;
  scoreVariance : float
}.

(** The [results] object, without the copies of systemInfo and of the
    configuration. *)
Record Report : Type := {
  benchmarkInfo : BenchmarkInfo;
  aggregatedResults : AggregatedResults;
  individualRuns : list RunResult
}.

(** What runAllBenchmarks did: the run numbers runSingleBenchmark was called
    with, the 2-second waits, the failure it logged, and the report. *)
Record Session : Type := {
  invoked : list Z;
  cooldowns : nat;
  failure : option (Z * string);
  report : Report
}.

Definition scoreOf (run : RunResult) : float := overallScore (performanceMetrics run).

(** The aggregation after the loop; [now] is process.hrtime.bigint() there. *)
Definition aggregate (allRuns : list RunResult) (now : Z) : Report :=
  let totalDuration := (Z2F (now - startTime) / 1000000)%float in
  let totalCalculations :=
    fold_left (fun sum run => sum + totalFibonacciIndex run) allRuns 0 in
  let count := Z2F (Z.of_nat (List.length allRuns)) in
  let avgScore :=
    Math_round (fold_left (fun sum run => sum + scoreOf run) allRuns 0 / count)%float in
  let best := Math_max (map scoreOf allRuns) in
  let worst := Math_min (map scoreOf allRuns) in
  {| benchmarkInfo :=
       {| totalRuns := runs finalConfig;
          completedRuns := Z.of_nat (List.length allRuns);
          totalDurationMs := parseFloat (toFixed2 totalDuration) |};
     aggregatedResults :=
       {| totalCalculations := totalCalculations;
          averageCalculationsPerRun := Math_round (Z2F totalCalculations / count)%float;
          averageScore := avgScore;
          bestScore := best;
          worstScore := worst;
          scoreVariance := Math_round (best - worst)%float |};
     individualRuns := allRuns |}.

(** [for (let run = 1; run <= finalConfig.runs; run++)]: the run numbers the
    loop goes through when it is not left early. *)
Definition runNumbers : list Z := map Z.of_nat (seq 1 (Z.to_nat (runs finalConfig))).

(** The loop of runAllBenchmarks over the run numbers still to come;
    [world run] is the environment the run with that number meets. *)
Fixpoint sequenceRuns (world : Z -> RunInput) (pending : list Z)
    (allRuns : list RunResult) (called : list Z) (waits : nat)
    : option (list RunResult * list Z * nat * option (Z * string)) :=
  match pending with
  | [] => Some (allRuns, called, waits, None)
  | run :: later =>
      match runSingleBenchmark run (world run) with
      | None => None
      | Some (Failed reason) =>
          (* console.error, break *)
          Some (allRuns, called ++ [run], waits, Some (run, reason))
      | Some (Completed runResult) =>
          sequenceRuns world later (allRuns ++ [runResult]) (called ++ [run])
            (if run <? runs finalConfig then S waits else waits)
      end
  end.

Definition runAllBenchmarks (world : Z -> RunInput) (now : Z) : option Session :=
  match sequenceRuns world runNumbers [] [] 0 with
  | None => None
  | Some (allRuns, called, waits, failed) =>
      Some {| invoked := called;
              cooldowns := waits;
              failure := failed;
              report := aggregate allRuns now |}
  end.

End MainThread.

(** The worker's loop: its k-th message (k = 0, 1, ...) reports one
    calculation and the Fibonacci number of index k. *)
Definition workerReport (fuel : nat) (k : Z) : option WorkerReport :=
  match calculateFibonacci fuel k with
  | Some lastFibNumber => Some {| fibIndex := 1; lastFibonacciNumber := lastFibNumber |}
  | None => None
  end.

(** ** Reference definitions and sample environments *)

(** The memory efficiency as the specification words it: calculations per
    megabyte of peak resident memory, scaled by 1000. *)
Definition memoryEfficiencyPerMB (totalUnits peakBytes : Z) : float :=
  Math_round (Z2F totalUnits / (Z2F peakBytes / (1024 * 1024)) * 1000)%float.

(** The number of [activeWorkers--] a list of events causes before the
    timer fires. *)
Fixpoint decrements (evs : list event) : Z :=
  match evs with
  | [] => 0
  | error _ :: rest => 1 + decrements rest
  | exit _ _ :: rest => 1 + decrements rest
  | timer _ _ _ :: _ => 0
  | _ :: rest => decrements rest
  end.

(** The sum of the calculations the messages report before the timer fires. *)
Fixpoint reported (evs : list event) : Z :=
  match evs with
  | [] => 0
  | message _ data :: rest => fibIndex data + reported rest
  | timer _ _ _ :: _ => 0
  | _ :: rest => reported rest
  end.

Definition isTimer (ev : event) : bool :=
  match ev with
  | timer _ _ _ => true
  | _ => false
  end.

Definition noTimer (evs : list event) : bool := forallb (fun ev => negb (isTimer ev)) evs.

Definition reading (bytes : Z) : MemoryReading :=
  {| rss := bytes;
     heapTotal := 6 * 1024 * 1024;
     heapUsed := 4 * 1024 * 1024;
     external := 1024 * 1024;
     arrayBuffers := 10 * 1024 |}.

Definition fourCores : list CpuEntry := repeat {| cpu_entry_model := "Generic CPU" |} 4.

Definition sampleSystem : SystemInfo :=
  getSystemInfo "bench-host" fourCores (16 * 1024 * 1024 * 1024).

Definition noCpuSystem : SystemInfo :=
  getSystemInfo "bench-host" [] (16 * 1024 * 1024 * 1024).

Definition sampleConfig (runCount : Z) (limit : option Z) : Config :=
  {| duration := 2; maxRamMB := limit; runs := runCount |}.

(** A message as worker [workerLoop] posts it for index 10. *)
Definition sampleReport : WorkerReport := {| fibIndex := 1; lastFibonacciNumber := 55 |}.

Definition sampleInput (enteredAt : Z) (evs : list event) : RunInput :=
  {| entered := enteredAt;
     firstUsage := reading (50 * 1024 * 1024);
     firstRSS := reading (50 * 1024 * 1024);
     events := evs |}.

(** A run in which no worker ever reports. *)
Definition idleRun : RunInput :=
  sampleInput 0 [timer 2000000000 (reading (50 * 1024 * 1024)) "2024-01-15T10:30:02.000Z"].

(** A run with a single report. *)
Definition oneReportRun : RunInput :=
  sampleInput 0 [message 0 sampleReport;
                 timer 2000000000 (reading (50 * 1024 * 1024)) "2024-01-15T10:30:02.000Z"].

(** A run in which worker 0 throws: 'error' and then 'exit' with code 1. *)
Definition oneWorkerThrows : RunInput :=
  sampleInput 0
    (repeat (message 1 sampleReport) 1000
     ++ [error 0; exit 0 1]
     ++ repeat (message 2 sampleReport) 1000
     ++ [timer 2000000000 (reading (50 * 1024 * 1024)) "2024-01-15T10:30:02.000Z"]).

(** A run whose second memory sample is at 120 MB. *)
Definition overLimitRun : RunInput :=
  sampleInput 0
    (repeat (message 0 sampleReport) 10
     ++ [memoryCheck (reading (60 * 1024 * 1024)) (reading (60 * 1024 * 1024))]
     ++ repeat (message 1 sampleReport) 10
     ++ [memoryCheck (reading (120 * 1024 * 1024)) (reading (120 * 1024 * 1024))]
     ++ [timer 2000000000 (reading (50 * 1024 * 1024)) "2024-01-15T10:30:02.000Z"]).

(** Two runs of 2 seconds with the 2-second wait between them: the clock
    starts at 0, the second run is entered at 4 s and its timer fires at 6 s.
    Each run receives 3000 messages. *)
Definition steadyRun (enteredAt : Z) : RunInput :=
  sampleInput enteredAt
    (repeat (message 0 sampleReport) 3000
     ++ [timer (enteredAt + 2000000000) (reading (50 * 1024 * 1024))
           "2024-01-15T10:30:02.000Z"]).

Definition twoRunWorld (run : Z) : RunInput := steadyRun ((run - 1) * 4000000000).

(** The first run completes, the second goes over the limit. *)
Definition abortingWorld (run : Z) : RunInput :=
  if run =? 2 then overLimitRun else steadyRun ((run - 1) * 4000000000).

(** Every run goes over the limit. *)
Definition exhaustedWorld (run : Z) : RunInput := overLimitRun.

(** ** Command line and configuration file *)

#[local] Set Warnings "-register-all".

(** The values a parsed JSON document or an argument slot can hold. *)
Inductive jsval : Type :=
| JUndefined
| JNull
| JBool (b : bool)
| JNum (x : float)
| JStr (s : string)
| JArr (items : list jsval)
| JObj (fields : list (string * jsval)).
    (* the own properties of a parsed object; its keys are distinct *)

(** ToBoolean. *)
Definition truthy (v : jsval) : bool :=
  match v with
  | JUndefined => false
  | JNull => false
  | JBool b => b
  | JNum x => negb (is_zero x || is_nan x)
  | JStr s => negb (s =? "")%string
  | JArr _ => true
  | JObj _ => true
  end.

(** [a || b] *)
Definition orElse (a b : jsval) : jsval := if truthy a then a else b.

Fixpoint lookup (fields : list (string * jsval)) (key : string) : jsval :=
  match fields with
  | [] => JUndefined
  | (k, v) :: rest => if (k =? key)%string then v else lookup rest key
  end.

(** [v.key] for one of the keys the program reads (duration, maxRamMB,
    outputFile, runs, postUrl): [None] is the TypeError raised on null and
    undefined; a value that is not an object has none of these keys. *)
Definition getProp (v : jsval) (key : string) : option jsval :=
  match v with
  | JUndefined => None
  | JNull => None
  | JObj fields => Some (lookup fields key)
  | _ => Some JUndefined
  end.

(** [v.key] where the access cannot throw. *)
Definition prop (v : jsval) (key : string) : jsval :=
  match getProp v key with
  | Some x => x
  | None => JUndefined
  end.

(** The object parseArguments builds. *)
Record CliConfig : Type := {
  c_duration : float;
  c_maxRamMB : jsval;
  c_help : bool;
  c_configFile : jsval;
  c_outputFile : jsval;
  c_runs : float
}.

Definition defaultCli : CliConfig :=
  {| c_duration := 30;
     c_maxRamMB := JNull;
     c_help := false;
     c_configFile := JNull;
     c_outputFile := JNull;
     c_runs := 1 |}.

(** [args[i + 1]]: a string, or undefined past the end. *)
Definition slot (rest : list string) : jsval :=
  match rest with
  | v :: _ => JStr v
  | [] => JUndefined
  end.

Definition isFlag (arg long short : string) : bool :=
  ((arg =? long) || (arg =? short))%string.

(** [!isNaN(value) && value > 0] *)
Definition acceptable (value : float) : bool :=
  negb (is_nan value) && (0 <? value)%float.

Section CommandLine.

(** The built-in parseInt, applied to [args[i + 1]]. *)
Variable parseInt : jsval -> float.

(** The loop of parseArguments from position i on; [args] are the
    arguments from that position.  An option that takes its value steps
    over it ([i++]); a numeric option does so only when the value is
    accepted. *)
Fixpoint parseFrom (config : CliConfig) (args : list string) : CliConfig :=
  match args with
  | [] => config
  | arg :: rest =>
      if isFlag arg "--help" "-h" then
        parseFrom {| c_duration := c_duration config;
                     c_maxRamMB := c_maxRamMB config;
                     c_help := true;
                     c_configFile := c_configFile config;
                     c_outputFile := c_outputFile config;
                     c_runs := c_runs config |} rest
      else if isFlag arg "--config" "-c" then
        let config' := {| c_duration := c_duration config;
                          c_maxRamMB := c_maxRamMB config;
                          c_help := c_help config;
                          c_configFile := slot rest;
                          c_outputFile := c_outputFile config;
                          c_runs := c_runs config |} in
        match rest with
        | _ :: rest' => parseFrom config' rest'
        | [] => config'
        end
      else if isFlag arg "--duration" "-d" then
        let value := parseInt (slot rest) in
        if acceptable value then
          let config' := {| c_duration := value;
                            c_maxRamMB := c_maxRamMB config;
                            c_help := c_help config;
                            c_configFile := c_configFile config;
                            c_outputFile := c_outputFile config;
                            c_runs := c_runs config |} in
          match rest with
          | _ :: rest' => parseFrom config' rest'
          | [] => config'
          end
        else parseFrom config rest
      else if isFlag arg "--max-ram" "-r" then
        let value := parseInt (slot rest) in
        if acceptable value then
          let config' := {| c_duration := c_duration config;
                            c_maxRamMB := JNum value;
                            c_help := c_help config;
                            c_configFile := c_configFile config;
                            c_outputFile := c_outputFile config;
                            c_runs := c_runs config |} in
          match rest with
          | _ :: rest' => parseFrom config' rest'
          | [] => config'
          end
        else parseFrom config rest
      else if isFlag arg "--output" "-o" then
        let config' := {| c_duration := c_duration config;
                          c_maxRamMB := c_maxRamMB config;
                          c_help := c_help config;
                          c_configFile := c_configFile config;
                          c_outputFile := slot rest;
                          c_runs := c_runs config |} in
        match rest with
        | _ :: rest' => parseFrom config' rest'
        | [] => config'
        end
      else if isFlag arg "--runs" "-n" then
        let value := parseInt (slot rest) in
        if acceptable value then
          let config' := {| c_duration := c_duration config;
                            c_maxRamMB := c_maxRamMB config;
                            c_help := c_help config;
                            c_configFile := c_configFile config;
                            c_outputFile := c_outputFile config;
                            c_runs := value |} in
          match rest with
          | _ :: rest' => parseFrom config' rest'
          | [] => config'
          end
        else parseFrom config rest
      else parseFrom config rest
  end.

(** parseArguments(); [args] is process.argv.slice(2). *)
Definition parseArguments (args : list string) : CliConfig := parseFrom defaultCli args.

End CommandLine.

(** The object loadConfigFile returns. *)
Record FileConfig : Type := {
  f_duration : jsval;
  f_maxRamMB : jsval;
  f_outputFile : jsval;
  f_runs : jsval;
  f_postUrl : jsval
}.

(** [config.duration && typeof config.duration === 'number' &&
    config.duration > 0] *)
Definition validDuration (d : jsval) : bool :=
  truthy d &&
  match d with
  | JNum x => (0 <? x)%float
  | _ => false
  end.

(** loadConfigFile(configPath); [parsed] is what
    JSON.parse(fs.readFileSync(configPath, 'utf8')) yields, [None] when
    either of them throws.  The result is the returned object ([None] for
    null) and whether the warning was printed. *)
Definition loadConfigFile (parsed : option jsval) : option FileConfig * bool :=
  match parsed with
  | None => (None, true)
  | Some config =>
      match getProp config "duration" with
      | None => (None, true)
      | Some d =>
          (* from here on [config] is not null: no access throws *)
          if validDuration d then
            (Some {| f_duration := d;
                     f_maxRamMB := orElse (prop config "maxRamMB") JNull;
                     f_outputFile := orElse (prop config "outputFile") JNull;
                     f_runs := orElse (prop config "runs") (JNum 1);
                     f_postUrl := orElse (prop config "postUrl") JNull |},
             false)
          else (None, false)
      end
  end.

(** finalConfig: the merge of the command line with the file. *)
Record FinalConfig : Type := {
  fin_duration : jsval;
  fin_maxRamMB : jsval;
  fin_outputFile : jsval;
  fin_runs : jsval;
  fin_postUrl : jsval
}.

Definition mergeConfig (config : CliConfig) (fileConfig : option FileConfig) : FinalConfig :=
  {| fin_duration :=
       orElse (JNum (c_duration config))
         (match fileConfig with Some f => f_duration f | None => JNum 30 end);
     fin_maxRamMB :=
       match c_maxRamMB config with
       | JUndefined => match fileConfig with Some f => f_maxRamMB f | None => JNull end
       | v => v
       end;
     fin_outputFile :=
       orElse (c_outputFile config)
         (match fileConfig with Some f => f_outputFile f | None => JNull end);
     fin_runs :=
       orElse (JNum (c_runs config))
         (match fileConfig with Some f => f_runs f | None => JNum 1 end);
     fin_postUrl := match fileConfig with Some f => f_postUrl f | None => JNull end |}.

(** The start of the main thread: help and exit, or the final
    configuration and whether the config-file warning was printed.
    [readConfig path] is what reading and parsing the file at [path]
    yields. *)
Inductive startupResult : Type :=
| ShowHelp
| Start (finalConfig : FinalConfig) (warned : bool).

Definition startup (parseInt : jsval -> float) (readConfig : string -> option jsval)
    (args : list string) : startupResult :=
  let config := parseArguments parseInt args in
  if c_help config then ShowHelp
  else
    let loaded :=
      if truthy (c_configFile config) then
        match c_configFile config with
        | JStr configPath => loadConfigFile (readConfig configPath)
        | _ => (None, false)
        end
      else (None, false) in
    Start (mergeConfig config (fst loaded)) (snd loaded).

(** ** The worker thread *)

(** The variables of the worker: fibIndex, lastFibNumber, localFibIndex. *)
Record WorkerState : Type := {
  w_fibIndex : Z;
  w_lastFibNumber : Z;
  w_localFibIndex : Z
}.

Definition workerStart : WorkerState :=
  {| w_fibIndex := 0; w_lastFibNumber := 0; w_localFibIndex := 0 |}.

(** One call of workerLoop: the new variables and the message posted;
    [fuel] bounds the loop of calculateFibonacci. *)
Definition workerLoop (fuel : nat) (st : WorkerState) : option (WorkerState * WorkerReport) :=
  match calculateFibonacci fuel (w_fibIndex st) with
  | Some lastFibNumber =>
      Some ({| w_fibIndex := w_fibIndex st + 1;
               w_lastFibNumber := lastFibNumber;
               w_localFibIndex := w_localFibIndex st + 1 |},
            {| fibIndex := 1; lastFibonacciNumber := lastFibNumber |})
  | None => None
  end.

(** [k] calls in a row, each scheduled by the one before (setImmediate):
    the variables after the last one and the messages posted, in order. *)
Fixpoint workerIterations (fuel : nat) (k : nat) (st : WorkerState)
    : option (WorkerState * list WorkerReport) :=
  match k with
  | O => Some (st, [])
  | S k' =>
      match workerLoop fuel st with
      | Some (st', posted) =>
          match workerIterations fuel k' st' with
          | Some (st'', later) => Some (st'', posted :: later)
          | None => None
          end
      | None => None
      end
  end.

(** ** Reference definitions for the properties *)

(** The number of bytes a unit stands for. *)
Definition unitBytes (u : unit_suffix) : Z :=
  match u with
  | B => 1
  | KB => 1024
  | MB => 1024 * 1024
  | GB => 1024 * 1024 * 1024
  end.

(** The values the messages carry before the timer fires. *)
Fixpoint reportedValues (evs : list event) : list Z :=
  match evs with
  | [] => []
  | message _ data :: rest => lastFibonacciNumber data :: reportedValues rest
  | timer _ _ _ :: _ => []
  | _ :: rest => reportedValues rest
  end.

(** The largest resident size among [start] and the samples taken before
    the timer fires. *)
Fixpoint peakOf (start : Z) (evs : list event) : Z :=
  match evs with
  | [] => start
  | memoryCheck currentMemory _ :: rest => peakOf (Z.max start (rss currentMemory)) rest
  | timer _ _ _ :: _ => start
  | _ :: rest => peakOf start rest
  end.

(** Every sample's second reading shows the resident size of its first. *)
Fixpoint steadyReadings (evs : list event) : Prop :=
  match evs with
  | [] => True
  | memoryCheck currentMemory again :: rest =>
      rss again = rss currentMemory /\ steadyReadings rest
  | _ :: rest => steadyReadings rest
  end.

(** A sample that is over the configured limit. *)
Definition isOverLimit (finalConfig : Config) (ev : event) : bool :=
  match ev with
  | memoryCheck currentMemory _ => overLimit finalConfig (rss currentMemory)
  | _ => false
  end.

(** No event of the list resolves the promise. *)
Definition undecided (finalConfig : Config) (evs : list event) : bool :=
  forallb (fun ev => negb (isTimer ev) && negb (isOverLimit finalConfig ev)) evs.

Definition bump (next : nat -> nat) (w : nat) : nat -> nat :=
  fun v => if Nat.eqb v w then S (next v) else next v.

(** The messages are those of workers running workerLoop: the message a
    worker sends after [next w] earlier ones reports one calculation and
    the Fibonacci number of index [next w]. *)
Fixpoint fromWorkers (next : nat -> nat) (evs : list event) : Prop :=
  match evs with
  | [] => True
  | message w data :: rest =>
      data = {| fibIndex := 1; lastFibonacciNumber := fib (next w) |}
      /\ fromWorkers (bump next w) rest
  | _ :: rest => fromWorkers next rest
  end.

(** The number of messages before the timer fires. *)
Fixpoint messageCount (evs : list event) : Z :=
  match evs with
  | [] => 0
  | message _ _ :: rest => 1 + messageCount rest
  | timer _ _ _ :: _ => 0
  | _ :: rest => messageCount rest
  end.

(** One more than the highest index a worker has reported before the timer
    fires, starting from [reached]; 0 when nothing was reported. *)
Fixpoint reachedIndex (next : nat -> nat) (reached : nat) (evs : list event) : nat :=
  match evs with
  | [] => reached
  | message w _ :: rest => reachedIndex (bump next w) (Nat.max reached (S (next w))) rest
  | timer _ _ _ :: _ => reached
  | _ :: rest => reachedIndex next reached rest
  end.

(** A stand-in for parseInt on the samples: decimal digits only. *)
Fixpoint digitsValue (s : string) (acc : Z) : option Z :=
  match s with
  | EmptyString => Some acc
  | String c rest =>
      let n := Z.of_nat (Ascii.nat_of_ascii c) - 48 in
      if (0 <=? n) && (n <=? 9) then digitsValue rest (10 * acc + n) else None
  end.

Definition sampleParseInt (v : jsval) : float :=
  match v with
  | JStr (String c rest) =>
      match digitsValue (String c rest) 0 with
      | Some z => Z2F z
      | None => nan
      end
  | _ => nan
  end.

(** What every object built by parseArguments satisfies. *)
Definition wellFormedCli (config : CliConfig) : Prop :=
  (0 <? c_duration config)%float = true /\
  (0 <? c_runs config)%float = true /\
  (c_maxRamMB config = JNull \/
   exists x, c_maxRamMB config = JNum x /\ (0 <? x)%float = true).

(** One of the twelve option names. *)
Definition recognised (arg : string) : bool :=
  isFlag arg "--help" "-h" || isFlag arg "--config" "-c"
  || isFlag arg "--duration" "-d" || isFlag arg "--max-ram" "-r"
  || isFlag arg "--output" "-o" || isFlag arg "--runs" "-n".

(** A configuration document: 3 seconds, 500 MB, runs 0, an output file. *)
Definition sampleDocument : jsval :=
  JObj [("duration", JNum 3); ("maxRamMB", JNum 500); ("runs", JNum 0);
        ("outputFile", JStr "results.json")]%string.

(** The part of the memory monitor that follows the limit test. *)
Definition recordPeak (st : RunState) (currentMemory again : MemoryReading) : RunState :=
  let currentRSS := rss currentMemory in
  if currentRSS >? peakRSSBytes st then
    {| workers := workers st;
       totalFibIndex := totalFibIndex st;
       maxFibNumber := maxFibNumber st;
       activeWorkers := activeWorkers st;
       peakMemoryUsage := getMemoryUsage again;
       peakRSSBytes := currentRSS |}
  else st.

(** The closure state after the events that come before the timer, in a
    run that no sample aborts. *)
Fixpoint settle (st : RunState) (evs : list event) : RunState :=
  match evs with
  | [] => st
  | message _ data :: rest => settle (onMessage st data) rest
  | error _ :: rest => settle (onError st) rest
  | exit _ code :: rest => settle (onExit st code) rest
  | memoryCheck currentMemory again :: rest => settle (recordPeak st currentMemory again) rest
  | timer _ _ _ :: _ => st
  end.

(** A run in which worker 0 reports four times and worker 1 twice. *)
Definition twoWorkerRun : RunInput :=
  sampleInput 0
    [message 0 {| fibIndex := 1; lastFibonacciNumber := 0 |};
     message 1 {| fibIndex := 1; lastFibonacciNumber := 0 |};
     message 0 {| fibIndex := 1; lastFibonacciNumber := 1 |};
     memoryCheck (reading (70 * 1024 * 1024)) (reading (70 * 1024 * 1024));
     message 0 {| fibIndex := 1; lastFibonacciNumber := 1 |};
     message 1 {| fibIndex := 1; lastFibonacciNumber := 1 |};
     message 0 {| fibIndex := 1; lastFibonacciNumber := 2 |};
     memoryCheck (reading (60 * 1024 * 1024)) (reading (60 * 1024 * 1024));
     timer 2000000000 (reading (50 * 1024 * 1024)) "2024-01-15T10:30:02.000Z"].

(** The run with this number completes in this world with this result. *)
Definition completes (finalConfig : Config) (systemInfo : SystemInfo) (startTime : Z)
    (world : Z -> RunInput) (run : Z) (r : RunResult) : Prop :=
  runSingleBenchmark finalConfig systemInfo startTime run (world run) = Some (Completed r).

(** The 2-second waits that follow the completed runs [done]. *)
Definition waitsAfter (finalConfig : Config) (done : list Z) : nat :=
  List.length (filter (fun run => run <? runs finalConfig) done).

(** * Properties *)

(** ** Binary64 facts used below *)

Section Binary64.

Lemma digits2_pos_bounds (p : positive) :
  2 ^ (Zpos (digits2_pos p) - 1) <= Zpos p < 2 ^ Zpos (digits2_pos p).
Proof.
  induction p as [p IH | p IH | ]; cbn [digits2_pos].
  - rewrite Pos2Z.inj_succ.
    replace (Z.succ (Zpos (digits2_pos p)) - 1) with (Z.succ (Zpos (digits2_pos p) - 1)) by lia.
    rewrite !Z.pow_succ_r by lia. lia.
  - rewrite Pos2Z.inj_succ.
    replace (Z.succ (Zpos (digits2_pos p)) - 1) with (Z.succ (Zpos (digits2_pos p) - 1)) by lia.
    rewrite !Z.pow_succ_r by lia. lia.
  - cbn. lia.
Qed.

Lemma digits2_pos_unique (p : positive) (d : Z) :
  2 ^ (d - 1) <= Zpos p < 2 ^ d -> Zpos (digits2_pos p) = d.
Proof.
  intros [Hlo Hhi].
  pose proof (digits2_pos_bounds p) as [Plo Phi].
  set (k := Zpos (digits2_pos p)) in *.
  assert (0 < k) by (subst k; lia).
  assert (0 < d).
  { destruct (Z_lt_le_dec 0 d) as [|Hd]; [assumption|].
    assert (2 ^ d <= 2 ^ 0) by (apply Z.pow_le_mono_r; lia).
    simpl in *. lia. }
  destruct (Z.lt_trichotomy k d) as [Hlt | [Heq | Hgt]]; [| assumption |].
  - assert (2 ^ k <= 2 ^ (d - 1)) by (apply Z.pow_le_mono_r; lia). lia.
  - assert (2 ^ d <= 2 ^ (k - 1)) by (apply Z.pow_le_mono_r; lia). lia.
Qed.

Lemma fexp_binary64 (e : Z) : fexp prec emax e = Z.max (e - 53) (-1074).
Proof. reflexivity. Qed.

(** A mantissa in [2^52, 2^54) has 53 or 54 bits. *)
Lemma digits_53_or_54 (p : positive) :
  4503599627370496 <= Zpos p < 18014398509481984 ->
  (Zpos p < 9007199254740992 /\ Zpos (digits2_pos p) = 53) \/
  (9007199254740992 <= Zpos p /\ Zpos (digits2_pos p) = 54).
Proof.
  intros [Hlo Hhi].
  destruct (Z_lt_le_dec (Zpos p) 9007199254740992) as [Hlt | Hge]; [left | right];
    (split; [assumption | apply digits2_pos_unique; cbn; lia]).
Qed.

Lemma shr_fexp_normal (p : positive) (e : Z) (l : location) :
  4503599627370496 <= Zpos p < 18014398509481984 ->
  -1074 <= e ->
  exists p' r s e',
    shr_fexp prec emax (Zpos p) e l = (Build_shr_record (Zpos p') r s, e') /\
    4503599627370496 <= Zpos p' < 9007199254740992 /\
    e <= e' <= e + 1.
Proof.
  intros Hp He.
  unfold shr_fexp. cbn [Zdigits2]. rewrite fexp_binary64.
  destruct (digits_53_or_54 p Hp) as [[Hlt D] | [Hge D]]; rewrite D.
  - replace (Z.max (53 + e - 53) (-1074) - e) with 0 by lia.
    cbn [shr].
    destruct l as [|[]]; cbn [shr_record_of_loc];
      do 4 eexists; (split; [reflexivity | lia]).
  - replace (Z.max (54 + e - 53) (-1074) - e) with 1 by lia.
    cbn [shr iter_pos].
    destruct p as [p' | p' | ]; [ | | lia];
      destruct l as [|[]]; cbn [shr_record_of_loc shr_1 orb];
      do 4 eexists; (split; [reflexivity | lia]).
Qed.

Lemma round_nearest_even_bounds (m : Z) (l : location) :
  m <= round_nearest_even m l <= m + 1.
Proof.
  destruct l as [|[]]; cbn [round_nearest_even]; try lia.
  destruct (Z.even m); lia.
Qed.

(** Rounding a 53- or 54-bit integer mantissa that can neither underflow
    nor overflow gives a normal number. *)
Lemma binary_round_aux_normal (sx : bool) (p : positive) (e : Z) (l : location) :
  4503599627370496 <= Zpos p < 18014398509481984 ->
  -1074 <= e <= 969 ->
  exists m e',
    binary_round_aux prec emax sx (Zpos p) e l = S754_finite sx m e' /\
    4503599627370496 <= Zpos m < 9007199254740992 /\
    e <= e' <= e + 2.
Proof.
  intros Hp He.
  unfold binary_round_aux.
  destruct (shr_fexp_normal p e l Hp) as (p1 & r1 & s1 & e1 & E1 & B1 & Be1); [lia|].
  rewrite E1. cbn [shr_m].
  pose proof (round_nearest_even_bounds (Zpos p1)
                (loc_of_shr_record (Build_shr_record (Zpos p1) r1 s1))) as Hr.
  destruct (round_nearest_even (Zpos p1) _) as [ | p2 | p2 ]; try lia.
  destruct (shr_fexp_normal p2 e1 loc_Exact) as (p3 & r3 & s3 & e3 & E3 & B3 & Be3); [lia | lia |].
  rewrite E3. cbn [shr_m].
  replace (e3 <=? emax - prec) with true by (symmetry; apply Z.leb_le; cbn; lia).
  exists p3, e3. repeat split; lia.
Qed.

(** An exact 53-bit mantissa in range is kept as it is. *)
Lemma binary_round_aux_exact (sx : bool) (p : positive) (e : Z) :
  4503599627370496 <= Zpos p < 9007199254740992 ->
  -1074 <= e <= 971 ->
  binary_round_aux prec emax sx (Zpos p) e loc_Exact = S754_finite sx p e.
Proof.
  intros Hp He.
  assert (D : Zpos (digits2_pos p) = 53) by (apply digits2_pos_unique; cbn; lia).
  unfold binary_round_aux, shr_fexp. cbn [Zdigits2]. rewrite fexp_binary64, D.
  replace (Z.max (53 + e - 53) (-1074) - e) with 0 by lia.
  cbn [shr shr_record_of_loc shr_m loc_of_shr_record round_nearest_even Zdigits2].
  rewrite fexp_binary64, D.
  replace (Z.max (53 + e - 53) (-1074) - e) with 0 by lia.
  cbn [shr shr_m].
  replace (e <=? emax - prec) with true by (symmetry; apply Z.leb_le; cbn; lia).
  reflexivity.
Qed.

Lemma iter_xO_value (p k : positive) :
  Zpos (Pos.iter xO p k) = Zpos p * 2 ^ Zpos k.
Proof.
  induction k as [ | k IH ] using Pos.peano_ind.
  - cbn. lia.
  - rewrite Pos.iter_succ, Pos2Z.inj_xO, IH, Pos2Z.inj_succ, Z.pow_succ_r by lia. lia.
Qed.

(** An integer from 1 to 2^53 is converted to a normal number of exactly
    that value: z = m * 2^e. *)
Lemma binary_normalize_integer (z : Z) :
  1 <= z <= 9007199254740992 ->
  exists m e,
    binary_normalize prec emax z 0 false = S754_finite false m e /\
    4503599627370496 <= Zpos m < 9007199254740992 /\
    -52 <= e <= 1 /\
    z * 2 ^ (1 - e) = Zpos m * 2.
Proof.
  intros Hz.
  destruct z as [ | p | p ]; try lia.
  cbn [binary_normalize]. unfold binary_round.
  pose proof (digits2_pos_bounds p) as Hd.
  remember (Zpos (digits2_pos p)) as d eqn:Ed.
  assert (Hd1 : 1 <= d) by lia.
  rewrite fexp_binary64.
  destruct (Z_lt_le_dec (Zpos p) 9007199254740992) as [Hlt | Hge].
  - assert (Hd53 : d <= 53).
    { destruct (Z_le_gt_dec d 53) as [|Hgt]; [assumption|].
      assert (2 ^ 53 <= 2 ^ (d - 1)) by (apply Z.pow_le_mono_r; lia).
      cbn in *. lia. }
    replace (Z.max (d + 0 - 53) (-1074)) with (d - 53) by lia.
    unfold shl_align.
    destruct (Z_lt_le_dec d 53) as [Hd52 | Hd53'].
    + destruct (d - 53 - 0) as [ | k | k ] eqn:Ek; try lia.
      assert (Hk : Zpos k = 53 - d) by lia.
      assert (Hm : Zpos (Pos.iter xO p k) = Zpos p * 2 ^ (53 - d))
        by (rewrite iter_xO_value, Hk; reflexivity).
      assert (Hpow : 2 ^ (d - 1) * 2 ^ (53 - d) = 4503599627370496).
      { rewrite <- Z.pow_add_r by lia. replace (d - 1 + (53 - d)) with 52 by lia. reflexivity. }
      assert (Hpow' : 2 ^ d * 2 ^ (53 - d) = 9007199254740992).
      { rewrite <- Z.pow_add_r by lia. replace (d + (53 - d)) with 53 by lia. reflexivity. }
      assert (Hpos : 0 < 2 ^ (53 - d)) by (apply Z.pow_pos_nonneg; lia).
      exists (Pos.iter xO p k), (d - 53).
      split; [apply binary_round_aux_exact; nia|].
      split; [nia|]. split; [lia|].
      rewrite Hm. replace (1 - (d - 53)) with (Z.succ (53 - d)) by lia.
      rewrite Z.pow_succ_r by lia. lia.
    + assert (d = 53) by lia.
      replace (d - 53 - 0) with 0 by lia.
      assert (Hlo : 2 ^ (d - 1) = 4503599627370496) by (rewrite H; reflexivity).
      exists p, 0. split; [apply binary_round_aux_exact; lia|].
      split; [lia|]. split; [lia|].
      cbn. lia.
  - assert (Zpos p = 9007199254740992) by lia.
    assert (p = 9007199254740992%positive) by lia. subst p. subst d.
    exists 4503599627370496%positive, 1.
    split; [vm_compute; reflexivity|]. cbn. lia.
Qed.

Lemma valid_binary_normal (s : bool) (m : positive) (e : Z) :
  4503599627370496 <= Zpos m < 9007199254740992 ->
  -1074 <= e <= 971 ->
  valid_binary (S754_finite s m e) = true.
Proof.
  intros Hm He.
  assert (D : Zpos (digits2_pos m) = 53) by (apply digits2_pos_unique; cbn; lia).
  cbn [SpecFloat.valid_binary]. unfold bounded, canonical_mantissa.
  rewrite fexp_binary64, D.
  apply andb_true_intro. split; [apply Z.eqb_eq | apply Z.leb_le; cbn]; lia.
Qed.

Lemma Prim2SF_Z2F (z : Z) :
  1 <= z <= 9007199254740992 ->
  exists m e,
    Prim2SF (Z2F z) = S754_finite false m e /\
    4503599627370496 <= Zpos m < 9007199254740992 /\
    -52 <= e <= 1 /\
    z * 2 ^ (1 - e) = Zpos m * 2.
Proof.
  intros Hz.
  destruct (binary_normalize_integer z Hz) as (m & e & E & Hm & He & Hv).
  exists m, e. split; [| auto].
  unfold Z2F. rewrite E. apply Prim2SF_SF2Prim, valid_binary_normal; lia.
Qed.

(** The quotient of two normal numbers, when it can neither underflow nor
    overflow, is a normal number. *)
Lemma SFdiv_normal (s1 s2 : bool) (m1 m2 : positive) (e1 e2 : Z) :
  4503599627370496 <= Zpos m1 < 9007199254740992 ->
  4503599627370496 <= Zpos m2 < 9007199254740992 ->
  -1021 <= e1 - e2 <= 1022 ->
  exists m e,
    SFdiv prec emax (S754_finite s1 m1 e1) (S754_finite s2 m2 e2)
      = S754_finite (xorb s1 s2) m e /\
    4503599627370496 <= Zpos m < 9007199254740992 /\
    e1 - e2 - 53 <= e <= e1 - e2 - 51.
Proof.
  intros H1 H2 He.
  assert (D1 : Zpos (digits2_pos m1) = 53) by (apply digits2_pos_unique; cbn; lia).
  assert (D2 : Zpos (digits2_pos m2) = 53) by (apply digits2_pos_unique; cbn; lia).
  cbn [SFdiv]. unfold SFdiv_core_binary. cbn [Zdigits2]. rewrite D1, D2, fexp_binary64.
  cbv zeta.
  replace (Z.min (Z.max (53 + e1 - (53 + e2) - 53) (-1074)) (e1 - e2))
    with (e1 - e2 - 53) by lia.
  replace (e1 - e2 - (e1 - e2 - 53)) with 53 by lia.
  cbv iota. rewrite Z.shiftl_mul_pow2 by lia.
  change (2 ^ 53) with 9007199254740992.
  pose proof (Z.div_le_lower_bound (Zpos m1 * 9007199254740992) (Zpos m2)
                4503599627370496 ltac:(lia) ltac:(nia)) as Hlo.
  pose proof (Z.div_lt_upper_bound (Zpos m1 * 9007199254740992) (Zpos m2)
                18014398509481984 ltac:(lia) ltac:(nia)) as Hhi.
  unfold Z.div in Hlo, Hhi.
  destruct (Z.div_eucl (Zpos m1 * 9007199254740992) (Zpos m2)) as [q r].
  cbn [fst] in Hlo, Hhi.
  destruct q as [ | q | q ]; try lia.
  destruct (binary_round_aux_normal (xorb s1 s2) q (e1 - e2 - 53)
              (new_location (Zpos m2) r) ltac:(lia) ltac:(lia))
    as (m & e & E & Hm & Hee).
  exists m, e. repeat split; try assumption; lia.
Qed.

(** A finite nonzero number divided by itself is exactly 1. *)
Lemma SFdiv_self (s : bool) (m : positive) (e : Z) :
  SFdiv prec emax (S754_finite s m e) (S754_finite s m e)
    = S754_finite false 4503599627370496 (-52).
Proof.
  cbn [SFdiv]. unfold SFdiv_core_binary. rewrite !Z.sub_diag.
  cbv zeta.
  change (Z.min (fexp prec emax 0) 0) with (-53).
  change (0 - -53) with 53. cbv iota.
  rewrite Z.shiftl_mul_pow2 by lia.
  pose proof (Z.div_mul (2 ^ 53) (Zpos m) ltac:(lia)) as Hq.
  pose proof (Z.mod_mul (2 ^ 53) (Zpos m) ltac:(lia)) as Hr.
  rewrite (Z.mul_comm (2 ^ 53)) in Hq, Hr.
  unfold Z.div, Z.modulo in Hq, Hr.
  destruct (Z.div_eucl (Zpos m * 2 ^ 53) (Zpos m)) as [q r].
  cbn [fst snd] in Hq, Hr. subst q r.
  rewrite xorb_nilpotent.
  unfold new_location, new_location_even, new_location_odd.
  destruct (Z.even (Zpos m)); vm_compute; reflexivity.
Qed.

Lemma div_self_one (x : float) (s : bool) (m : positive) (e : Z) :
  Prim2SF x = S754_finite s m e -> (x / x)%float = 1%float.
Proof.
  intros E. apply Prim2SF_inj. rewrite div_spec, E.
  unfold SF64div. rewrite SFdiv_self. reflexivity.
Qed.

Lemma zero_div_finite (y : float) (m : positive) (e : Z) :
  Prim2SF y = S754_finite false m e -> (0 / y)%float = 0%float.
Proof.
  intros E. apply Prim2SF_inj. rewrite div_spec, E. reflexivity.
Qed.

Lemma nan_div (y : float) : (nan / y)%float = nan.
Proof. apply Prim2SF_inj. rewrite div_spec. reflexivity. Qed.

Lemma nan_mul (y : float) : (nan * y)%float = nan.
Proof. apply Prim2SF_inj. rewrite mul_spec. reflexivity. Qed.

Lemma mul_nan (x : float) : (x * nan)%float = nan.
Proof.
  apply Prim2SF_inj. rewrite mul_spec.
  change (Prim2SF nan) with S754_nan.
  destruct (Prim2SF x); reflexivity.
Qed.

(** Division by a power of two is exact: only the exponent changes. *)
Lemma SFdiv_power_of_two (s : bool) (m : positive) (e e2 : Z) :
  4503599627370496 <= Zpos m < 9007199254740992 ->
  -1021 <= e - e2 <= 1023 ->
  SFdiv prec emax (S754_finite s m e) (S754_finite false 4503599627370496 e2)
    = S754_finite s m (e - e2 - 52).
Proof.
  intros Hm He.
  assert (D : Zpos (digits2_pos m) = 53) by (apply digits2_pos_unique; cbn; lia).
  cbn [SFdiv]. unfold SFdiv_core_binary. cbn [Zdigits2]. rewrite D.
  change (Zpos (digits2_pos 4503599627370496)) with 53.
  rewrite fexp_binary64. cbv zeta.
  replace (Z.min (Z.max (53 + e - (53 + e2) - 53) (-1074)) (e - e2))
    with (e - e2 - 53) by lia.
  replace (e - e2 - (e - e2 - 53)) with 53 by lia.
  cbv iota. rewrite Z.shiftl_mul_pow2 by lia.
  replace (Zpos m * 2 ^ 53) with (Zpos m~0 * 4503599627370496)
    by (change (2 ^ 53) with 9007199254740992; lia).
  pose proof (Z.div_mul (Zpos m~0) 4503599627370496 ltac:(lia)) as Hq.
  pose proof (Z.mod_mul (Zpos m~0) 4503599627370496 ltac:(lia)) as Hr.
  unfold Z.div, Z.modulo in Hq, Hr.
  destruct (Z.div_eucl (Zpos m~0 * 4503599627370496) 4503599627370496) as [q r].
  cbn [fst snd] in Hq, Hr. subst q r.
  change (new_location 4503599627370496 0) with loc_Exact.
  rewrite xorb_false_r.
  assert (D' : Zpos (digits2_pos m~0) = 54) by (apply digits2_pos_unique; cbn; lia).
  unfold binary_round_aux, shr_fexp. cbn [Zdigits2]. rewrite fexp_binary64, D'.
  replace (Z.max (54 + (e - e2 - 53) - 53) (-1074) - (e - e2 - 53)) with 1 by lia.
  cbn [shr iter_pos shr_record_of_loc shr_1 orb shr_m loc_of_shr_record
       round_nearest_even Zdigits2].
  rewrite fexp_binary64, D.
  replace (Z.max (53 + (e - e2 - 53 + 1) - 53) (-1074) - (e - e2 - 53 + 1)) with 0 by lia.
  cbn [shr shr_m].
  replace (e - e2 - 53 + 1 <=? emax - prec) with true
    by (symmetry; apply Z.leb_le; cbn; lia).
  f_equal. lia.
Qed.

(** toFixed(2) of a positive normal number below 2^17 with a fraction part. *)
Lemma toFixed2_fraction (x : float) (m : positive) (e : Z) :
  Prim2SF x = S754_finite false m e ->
  e < 0 ->
  toFixed2 x = Fixed2 false (Z.shiftr (2 * (100 * Zpos m) + 2 ^ (- e)) (- e + 1)).
Proof.
  intros E He. unfold toFixed2. rewrite E.
  rewrite leb_spec, abs_spec, E.
  replace (SFleb (Prim2SF 1e21) (SFabs (S754_finite false m e))) with false.
  - replace (0 <=? e) with false by (symmetry; apply Z.leb_gt; lia). reflexivity.
  - symmetry.
    change (Prim2SF 1e21) with (S754_finite false 7629394531250000 17).
    cbn [SFabs]. unfold SFleb, SFcompare.
    replace (17 ?= e) with Gt by (symmetry; apply Z.compare_gt_iff; lia).
    reflexivity.
Qed.

(** toFixed(2) of bytes / 2^k (k = 10, 20, 30 for KB, MB, GB): the count of
    hundredths is bytes * 100 / 2^k rounded half up. *)
Lemma toFixed2_scaled_bytes (bytes k : Z) (c : float) :
  Prim2SF c = S754_finite false 4503599627370496 (k - 52) ->
  10 <= k <= 30 ->
  1 <= bytes <= 9007199254740992 ->
  toFixed2 (Z2F bytes / c) = Fixed2 false ((200 * bytes + 2 ^ k) / 2 ^ (k + 1)).
Proof.
  intros Ec Hk Hb.
  destruct (Prim2SF_Z2F bytes Hb) as (m & e & E & Hm & He & Hv).
  assert (Eq : Prim2SF (Z2F bytes / c) = S754_finite false m (e - k)).
  { rewrite div_spec, E, Ec. unfold SF64div.
    rewrite SFdiv_power_of_two by lia. f_equal. lia. }
  rewrite (toFixed2_fraction _ m (e - k) Eq) by lia.
  f_equal.
  rewrite Z.shiftr_div_pow2 by lia.
  remember (1 - e) as j eqn:Ej.
  assert (Hj : 0 <= j) by lia.
  replace (- (e - k)) with (k + j - 1) by lia.
  replace (k + j - 1 + 1) with (k + j) by lia.
  assert (P1 : 2 ^ (k + j) = 2 * 2 ^ (k + j - 1)).
  { replace (k + j) with (Z.succ (k + j - 1)) at 1 by lia.
    apply Z.pow_succ_r. lia. }
  assert (P2 : 2 ^ (k + j) = 2 ^ k * 2 ^ j) by (apply Z.pow_add_r; lia).
  assert (P3 : 2 ^ (k + 1) = 2 * 2 ^ k) by (apply Z.pow_succ_r; lia).
  assert (Hpj : 0 < 2 ^ j) by (apply Z.pow_pos_nonneg; lia).
  assert (Hpk : 0 < 2 ^ k) by (apply Z.pow_pos_nonneg; lia).
  assert (Hpkj : 0 < 2 ^ (k + j - 1)) by (apply Z.pow_pos_nonneg; lia).
  rewrite <- (Z.div_mul_cancel_l (2 * (100 * Zpos m) + 2 ^ (k + j - 1)) (2 ^ (k + j)) 2)
    by lia.
  replace (2 * (2 * (100 * Zpos m) + 2 ^ (k + j - 1)))
    with ((200 * bytes + 2 ^ k) * 2 ^ j) by nia.
  replace (2 * 2 ^ (k + j)) with (2 ^ (k + 1) * 2 ^ j) by nia.
  apply Z.div_mul_cancel_r; lia.
Qed.

Lemma formatBytes_megabytes (bytes : Z) :
  1024 * 1024 <= bytes < 1024 * 1024 * 1024 ->
  formatBytes bytes =
    {| figure := Fixed2 false ((200 * bytes + 1048576) / 2097152); suffix := MB |}.
Proof.
  intros Hb. unfold formatBytes.
  rewrite !Z.geb_leb.
  destruct (Z.leb_spec (1024 * 1024 * 1024) bytes); [lia|].
  destruct (Z.leb_spec (1024 * 1024) bytes); [|lia].
  f_equal.
  apply (toFixed2_scaled_bytes bytes 20); [reflexivity | lia | lia].
Qed.

Lemma formatBytes_gigabytes (bytes : Z) :
  1024 * 1024 * 1024 <= bytes <= 9007199254740992 ->
  formatBytes bytes =
    {| figure := Fixed2 false ((200 * bytes + 1073741824) / 2147483648); suffix := GB |}.
Proof.
  intros Hb. unfold formatBytes.
  rewrite !Z.geb_leb.
  destruct (Z.leb_spec (1024 * 1024 * 1024) bytes); [|lia].
  f_equal.
  apply (toFixed2_scaled_bytes bytes 30); [reflexivity | lia | lia].
Qed.

Lemma formatBytes_kilobytes (bytes : Z) :
  1024 <= bytes < 1024 * 1024 ->
  formatBytes bytes =
    {| figure := Fixed2 false ((200 * bytes + 1024) / 2048); suffix := KB |}.
Proof.
  intros Hb. unfold formatBytes.
  rewrite !Z.geb_leb.
  destruct (Z.leb_spec (1024 * 1024 * 1024) bytes); [lia|].
  destruct (Z.leb_spec (1024 * 1024) bytes); [lia|].
  destruct (Z.leb_spec 1024 bytes); [|lia].
  f_equal.
  apply (toFixed2_scaled_bytes bytes 10); [reflexivity | lia | lia].
Qed.

(** The quotient of an integer from 1 to 2^53 by a normal constant. *)
Lemma integer_quotient_normal (z : Z) (c : float) (mc : positive) (ec : Z) :
  Prim2SF c = S754_finite false mc ec ->
  4503599627370496 <= Zpos mc < 9007199254740992 ->
  -900 <= ec <= 900 ->
  1 <= z <= 9007199254740992 ->
  exists m e,
    Prim2SF (Z2F z / c) = S754_finite false m e /\
    4503599627370496 <= Zpos m < 9007199254740992 /\
    -105 - ec <= e <= -50 - ec.
Proof.
  intros Ec Hmc Hec Hz.
  destruct (Prim2SF_Z2F z Hz) as (m1 & e1 & E1 & B1 & Be1 & _).
  destruct (SFdiv_normal false false m1 mc e1 ec B1 Hmc ltac:(lia)) as (m & e & E & Hm & He).
  exists m, e. split; [| split; [assumption | lia]].
  rewrite div_spec, E1, Ec. exact E.
Qed.

Lemma parsed_figure_normal (bytes : Z) :
  1 <= bytes <= 9007199254740992 ->
  exists m e, Prim2SF (parseFloat (figure (formatBytes bytes))) = S754_finite false m e.
Proof.
  intros Hb.
  assert (Hundredths : forall h, 1 <= h <= 9007199254740992 ->
            exists m e, Prim2SF (parseFloat (Fixed2 false h)) = S754_finite false m e).
  { intros h Hh. cbn [parseFloat].
    destruct (integer_quotient_normal h 100 7036874417766400 (-46)
                ltac:(reflexivity) ltac:(lia) ltac:(lia) Hh) as (m & e & E & _).
    exists m, e. exact E. }
  unfold formatBytes. rewrite !Z.geb_leb.
  destruct (Z.leb_spec (1024 * 1024 * 1024) bytes);
    [| destruct (Z.leb_spec (1024 * 1024) bytes);
       [| destruct (Z.leb_spec 1024 bytes)]]; cbn [figure].
  - rewrite (toFixed2_scaled_bytes bytes 30) by (reflexivity || lia).
    change (2 ^ 30) with 1073741824. change (2 ^ (30 + 1)) with 2147483648.
    apply Hundredths. split.
    + apply Z.div_le_lower_bound; lia.
    + apply Z.lt_le_incl, Z.div_lt_upper_bound; lia.
  - rewrite (toFixed2_scaled_bytes bytes 20) by (reflexivity || lia).
    change (2 ^ 20) with 1048576. change (2 ^ (20 + 1)) with 2097152.
    apply Hundredths. split.
    + apply Z.div_le_lower_bound; lia.
    + apply Z.lt_le_incl, Z.div_lt_upper_bound; lia.
  - rewrite (toFixed2_scaled_bytes bytes 10) by (reflexivity || lia).
    change (2 ^ 10) with 1024. change (2 ^ (10 + 1)) with 2048.
    apply Hundredths. split.
    + apply Z.div_le_lower_bound; lia.
    + apply Z.lt_le_incl, Z.div_lt_upper_bound; lia.
  - cbn [parseFloat].
    destruct (Prim2SF_Z2F bytes Hb) as (m & e & E & _). exists m, e. exact E.
Qed.

(** The elapsed seconds [durationMs / 1000] of a positive duration. *)
Lemma elapsed_seconds_normal (startTime endTime : Z) :
  1 <= endTime - startTime <= 9007199254740992 ->
  exists m e, Prim2SF (elapsedMs startTime endTime / 1000) = S754_finite false m e.
Proof.
  intros Hd. unfold elapsedMs.
  destruct (integer_quotient_normal (endTime - startTime) 1000000 8589934592000000 (-33)
              ltac:(reflexivity) ltac:(lia) ltac:(lia) Hd) as (m1 & e1 & E1 & B1 & Be1).
  destruct (SFdiv_normal false false m1 8796093022208000 e1 (-43) B1 ltac:(lia) ltac:(lia))
    as (m & e & E & _).
  exists m, e. rewrite div_spec, E1. exact E.
Qed.

End Binary64.

(** ** The work unit *)

Lemma fib_unfold (k : nat) : fib (S (S k)) = fib (S k) + fib k.
Proof. reflexivity. Qed.

(** Loop invariant: on entry with counter j the rolling values are
    fib (j - 2) and fib (j - 1). *)
Lemma fib_loop_invariant (fuel : nat) :
  forall n j : nat,
    (2 <= j)%nat -> (j <= S n)%nat -> (S n - j < fuel)%nat ->
    fib_loop fuel (Z.of_nat n) (Z.of_nat j) (fib (j - 2)) (fib (j - 1)) = Some (fib n).
Proof.
  induction fuel as [ | fuel IH ]; intros n j Hj2 Hjn Hfuel; [lia|].
  cbn [fib_loop].
  destruct (Z.leb_spec (Z.of_nat j) (Z.of_nat n)) as [Hle | Hgt].
  - destruct j as [ | [ | k ] ]; try lia.
    specialize (IH n (S (S (S k))) ltac:(lia) ltac:(lia) ltac:(lia)).
    replace (Z.of_nat (S (S k)) + 1) with (Z.of_nat (S (S (S k)))) by lia.
    replace (S (S (S k)) - 2)%nat with (S k) in IH by lia.
    replace (S (S (S k)) - 1)%nat with (S (S k)) in IH by lia.
    replace (S (S k) - 2)%nat with k by lia.
    replace (S (S k) - 1)%nat with (S k) by lia.
    rewrite fib_unfold, Z.add_comm in IH. exact IH.
  - assert (j = S n) by lia. subst j.
    replace (S n - 1)%nat with n by lia. reflexivity.
Qed.

(** C3: for every non-negative integer n, calculateFibonacci(n) is the
    standard Fibonacci number of index n (0 at index 0, 1 at index 1),
    obtained by the loop over two rolling values; it is deterministic: a
    second call on the same n gives the same value (whatever sufficient
    bound the loop is given). *)
Theorem calculateFibonacci_standard (n : Z) (fuel fuel' : nat) :
  0 <= n -> (Z.to_nat n <= fuel)%nat -> (Z.to_nat n <= fuel')%nat ->
  calculateFibonacci fuel n = Some (fib (Z.to_nat n)) /\
  calculateFibonacci fuel' n = calculateFibonacci fuel n.
Proof.
  intros Hn Hfuel Hfuel'.
  assert (Hany : forall f, (Z.to_nat n <= f)%nat ->
                   calculateFibonacci f n = Some (fib (Z.to_nat n))).
  { intros f Hf. unfold calculateFibonacci.
    destruct (Z.leb_spec n 1) as [Hle | Hgt].
    - assert (n = 0 \/ n = 1) as [-> | ->] by lia; reflexivity.
    - pose proof (fib_loop_invariant f (Z.to_nat n) 2 ltac:(lia) ltac:(lia) ltac:(lia)) as H.
      rewrite Z2Nat.id in H by lia. exact H. }
  split; [apply Hany; exact Hfuel|].
  rewrite (Hany fuel Hfuel), (Hany fuel' Hfuel'). reflexivity.
Qed.

Lemma calculateFibonacci_standard_witness :
  calculateFibonacci 10 10 = Some 55 /\
  calculateFibonacci 64 10 = calculateFibonacci 10 10.
Proof.
  apply (calculateFibonacci_standard 10 10 64); [lia | cbn; lia | cbn; lia].
Defined.

(** C10: for every negative integer n, calculateFibonacci(n) returns
    BigInt(n), the index itself: the branch n <= 1 takes all negative
    inputs, and no error is raised. *)
Theorem calculateFibonacci_negative (n : Z) (fuel : nat) :
  n < 0 -> calculateFibonacci fuel n = Some n.
Proof.
  intros Hn. unfold calculateFibonacci.
  destruct (Z.leb_spec n 1); [reflexivity | lia].
Qed.

Lemma calculateFibonacci_negative_witness : calculateFibonacci 0 (-7) = Some (-7).
Proof.
  apply (calculateFibonacci_negative (-7) 0). lia.
Defined.

(** ** One run *)

Section Run.

Variable finalConfig : Config.
Variable systemInfo : SystemInfo.
Variable startTime : Z.

(** A completed run is the timer callback applied to the closure state
    the earlier events built. *)
Lemma dispatch_completed (runNumber : Z) (evs : list event) :
  forall (st : RunState) (r : RunResult),
    dispatch finalConfig systemInfo startTime runNumber st evs = Some (Completed r) ->
    exists st' endTime finalMemory timestamp,
      r = onTimer finalConfig systemInfo startTime runNumber st' endTime finalMemory timestamp /\
      totalFibIndex st' = totalFibIndex st + reported evs /\
      activeWorkers st' = activeWorkers st - decrements evs.
Proof.
  induction evs as [ | ev rest IH ]; intros st r H; [discriminate|].
  destruct ev as [w data | w | w code | cur again | endTime fm ts]; cbn [dispatch handle] in H.
  - destruct (IH _ _ H) as (st' & t & fm & ts & Hr & Ht & Ha).
    exists st', t, fm, ts. cbn [reported decrements onMessage totalFibIndex activeWorkers] in *.
    repeat split; [assumption | lia | lia].
  - destruct (IH _ _ H) as (st' & t & fm & ts & Hr & Ht & Ha).
    exists st', t, fm, ts.
    cbn [reported decrements onError decrementActive totalFibIndex activeWorkers] in *.
    repeat split; [assumption | lia | lia].
  - destruct (IH _ _ H) as (st' & t & fm & ts & Hr & Ht & Ha).
    exists st', t, fm, ts.
    cbn [reported decrements onExit decrementActive totalFibIndex activeWorkers] in *.
    repeat split; [assumption | lia | lia].
  - unfold onMemoryCheck in H.
    destruct (overLimit finalConfig (rss cur)); [discriminate|].
    destruct (rss cur >? peakRSSBytes st);
      destruct (IH _ _ H) as (st' & t & fm & ts & Hr & Ht & Ha);
      exists st', t, fm, ts; cbn [reported decrements totalFibIndex activeWorkers] in *;
      repeat split; assumption || lia.
  - injection H as <-.
    exists st, endTime, fm, ts. cbn [reported decrements]. repeat split; lia.
Qed.

End Run.

(** ** Derived metrics *)

Lemma coreEfficiency_constant (systemInfo : SystemInfo) (totalFibIndex : Z) :
  0 < totalFibIndex <= 9007199254740992 ->
  1 <= numCores systemInfo <= 9007199254740992 ->
  coreEfficiencyOf systemInfo totalFibIndex = 100%float.
Proof.
  intros HU HC.
  destruct (Prim2SF_Z2F totalFibIndex ltac:(lia)) as (m1 & e1 & E1 & B1 & Be1 & _).
  destruct (Prim2SF_Z2F (numCores systemInfo) ltac:(lia)) as (m2 & e2 & E2 & B2 & Be2 & _).
  destruct (SFdiv_normal false false m1 m2 e1 e2 B1 B2 ltac:(lia)) as (m & e & E & _).
  unfold coreEfficiencyOf.
  rewrite (div_self_one (Z2F totalFibIndex / Z2F (numCores systemInfo)) (xorb false false) m e).
  - vm_compute. reflexivity.
  - rewrite div_spec, E1, E2. exact E.
Qed.

(** C9: for every completed run with totalUnits > 0 and coreCount >= 1 the
    derived coreEfficiency is the constant 100, whatever events the workers
    produced: the formula divides the per-core quotient by itself.  The
    upper bounds are the range in which a Number holds a count exactly. *)
Theorem coreEfficiency_is_100 (finalConfig : Config) (systemInfo : SystemInfo)
    (startTime runNumber : Z) (input : RunInput) (r : RunResult) :
  runSingleBenchmark finalConfig systemInfo startTime runNumber input = Some (Completed r) ->
  0 < totalFibonacciIndex r <= 9007199254740992 ->
  1 <= cpuCores r <= 9007199254740992 ->
  coreEfficiency (performanceMetrics r) = 100%float.
Proof.
  intros Hrun HU HC. unfold runSingleBenchmark in Hrun.
  destruct (dispatch_completed _ _ _ _ _ _ _ Hrun) as (st & t & fm & ts & -> & _ & _).
  cbn [onTimer totalFibonacciIndex cpuCores performanceMetrics deriveMetrics coreEfficiency] in *.
  apply coreEfficiency_constant; assumption.
Qed.

Lemma coreEfficiency_is_100_witness :
  exists r,
    runSingleBenchmark (sampleConfig 1 None) sampleSystem 0 1 oneReportRun
      = Some (Completed r) /\
    0 < totalFibonacciIndex r <= 9007199254740992 /\
    1 <= cpuCores r <= 9007199254740992 /\
    coreEfficiency (performanceMetrics r) = 100%float.
Proof.
  eexists. split; [reflexivity|].
  assert (HU : 0 < 1 <= 9007199254740992) by lia.
  assert (HC : 1 <= 4 <= 9007199254740992) by lia.
  split; [exact HU|]. split; [exact HC|].
  exact (coreEfficiency_is_100 (sampleConfig 1 None) sampleSystem 0 1 oneReportRun _
           eq_refl HU HC).
Defined.

Lemma nan_not_zero : nan <> 0%float.
Proof.
  intros H. apply (f_equal Prim2SF) in H. vm_compute in H. discriminate.
Qed.

Lemma Z2F_zero : Z2F 0 = 0%float.
Proof. reflexivity. Qed.

(** Once coreEfficiency is NaN, so is the score, whatever the other two
    metrics are. *)
Lemma overallScore_of_nan_efficiency (calculationsPerSecond memoryEfficiency : float) :
  overallScoreOf calculationsPerSecond nan memoryEfficiency = nan.
Proof.
  unfold overallScoreOf. rewrite nan_div, mul_nan, nan_mul. reflexivity.
Qed.

(** C1 (amended): when totalFibIndex is 0 at the moment the timer fires,
    no error is raised and the run result is still emitted; the score is
    computed by the same unguarded formulas as for any run.  The count, the
    per-core average, calculationsPerSecond and memoryEfficiency are 0,
    while coreEfficiency evaluates 0/0 and is NaN, and with it
    overallScore is NaN.  (The result has no degraded-run field.) *)
Theorem zero_units_metrics (finalConfig : Config) (systemInfo : SystemInfo)
    (startTime runNumber : Z) (st : RunState) (endTime : Z)
    (finalMemory usage : MemoryReading) (timestamp : string) :
  totalFibIndex st = 0 ->
  1 <= numCores systemInfo <= 9007199254740992 ->
  1 <= endTime - startTime <= 9007199254740992 ->
  peakMemoryUsage st = getMemoryUsage usage ->
  1 <= rss usage <= 9007199254740992 ->
  exists r,
    handle finalConfig systemInfo startTime runNumber st (timer endTime finalMemory timestamp)
      = inr (Completed r) /\
    totalFibonacciIndex r = 0 /\
    averageFibonacciIndexPerCore r = 0%float /\
    calculationsPerSecond (performanceMetrics r) = 0%float /\
    memoryEfficiency (performanceMetrics r) = 0%float /\
    coreEfficiency (performanceMetrics r) = nan /\
    overallScore (performanceMetrics r) = nan.
Proof.
  intros HU HC Ht Hpeak Hrss.
  eexists. split; [reflexivity|].
  cbn [onTimer totalFibonacciIndex averageFibonacciIndexPerCore performanceMetrics
       deriveMetrics calculationsPerSecond memoryEfficiency coreEfficiency overallScore].
  rewrite HU, Hpeak.
  destruct (Prim2SF_Z2F (numCores systemInfo) HC) as (mc & ec & Ec & _).
  destruct (elapsed_seconds_normal startTime endTime Ht) as (mt & et & Et).
  destruct (parsed_figure_normal (rss usage) Hrss) as (mp & ep & Ep).
  assert (Havg : avgFibIndexOf systemInfo 0 = 0%float).
  { unfold avgFibIndexOf. rewrite Z2F_zero, (zero_div_finite _ mc ec Ec). reflexivity. }
  assert (Hcps : calculationsPerSecondOf 0 (elapsedMs startTime endTime) = 0%float).
  { unfold calculationsPerSecondOf. rewrite Z2F_zero, (zero_div_finite _ mt et Et). reflexivity. }
  assert (Hmem : memoryEfficiencyOf 0 (getMemoryUsage usage) = 0%float).
  { unfold memoryEfficiencyOf. cbn [getMemoryUsage mu_rss].
    rewrite Z2F_zero, (zero_div_finite _ mp ep Ep). reflexivity. }
  assert (Hcore : coreEfficiencyOf systemInfo 0 = nan).
  { unfold coreEfficiencyOf. rewrite Z2F_zero, (zero_div_finite _ mc ec Ec). reflexivity. }
  rewrite Havg, Hcps, Hmem, Hcore.
  repeat split; reflexivity.
Qed.

Lemma zero_units_metrics_witness :
  totalFibIndex (initialState sampleSystem idleRun) = 0 /\
  1 <= numCores sampleSystem <= 9007199254740992 /\
  1 <= 2000000000 - 0 <= 9007199254740992 /\
  peakMemoryUsage (initialState sampleSystem idleRun)
    = getMemoryUsage (reading (50 * 1024 * 1024)) /\
  1 <= rss (reading (50 * 1024 * 1024)) <= 9007199254740992 /\
  exists r,
    handle (sampleConfig 1 None) sampleSystem 0 1 (initialState sampleSystem idleRun)
      (timer 2000000000 (reading (50 * 1024 * 1024)) "2024-01-15T10:30:02.000Z")
      = inr (Completed r) /\
    totalFibonacciIndex r = 0 /\
    averageFibonacciIndexPerCore r = 0%float /\
    calculationsPerSecond (performanceMetrics r) = 0%float /\
    memoryEfficiency (performanceMetrics r) = 0%float /\
    coreEfficiency (performanceMetrics r) = nan /\
    overallScore (performanceMetrics r) = nan.
Proof.
  assert (H1 : totalFibIndex (initialState sampleSystem idleRun) = 0) by reflexivity.
  assert (H2 : 1 <= numCores sampleSystem <= 9007199254740992) by (cbn; lia).
  assert (H3 : 1 <= 2000000000 - 0 <= 9007199254740992) by lia.
  assert (H4 : peakMemoryUsage (initialState sampleSystem idleRun)
               = getMemoryUsage (reading (50 * 1024 * 1024))) by reflexivity.
  assert (H5 : 1 <= rss (reading (50 * 1024 * 1024)) <= 9007199254740992) by (cbn; lia).
  repeat (split; [assumption|]).
  exact (zero_units_metrics (sampleConfig 1 None) sampleSystem 0 1
           (initialState sampleSystem idleRun) 2000000000
           (reading (50 * 1024 * 1024)) (reading (50 * 1024 * 1024))
           "2024-01-15T10:30:02.000Z" H1 H2 H3 H4 H5).
Defined.

(** C1 as stated fails: a run on four cores in which no worker reports
    still has its score computed, and the score is NaN, not 0. *)
Lemma zero_units_counterexample :
  exists r,
    runSingleBenchmark (sampleConfig 1 None) sampleSystem 0 1 idleRun = Some (Completed r) /\
    totalFibonacciIndex r = 0 /\
    coreEfficiency (performanceMetrics r) = nan /\
    overallScore (performanceMetrics r) = nan /\
    overallScore (performanceMetrics r) <> 0%float.
Proof.
  eexists. split; [reflexivity|].
  split; [reflexivity|]. split; [vm_compute; reflexivity|].
  split; [vm_compute; reflexivity|].
  intros H. vm_compute in H. exact (nan_not_zero H).
Qed.

(** ** Worker reports and failures *)

(** The total of a completed run is the sum of the counts its messages
    carried. *)
Lemma totalFibonacciIndex_counts_messages (finalConfig : Config) (systemInfo : SystemInfo)
    (startTime runNumber : Z) (input : RunInput) (r : RunResult) :
  runSingleBenchmark finalConfig systemInfo startTime runNumber input = Some (Completed r) ->
  totalFibonacciIndex r = reported (events input).
Proof.
  intros Hrun. unfold runSingleBenchmark in Hrun.
  destruct (dispatch_completed _ _ _ _ _ _ _ Hrun) as (st & t & fm & ts & -> & Ht & _).
  cbn [onTimer totalFibonacciIndex]. rewrite Ht. reflexivity.
Qed.

(** Every 'error' and every 'exit' event before the timer lowers the
    reported count of active workers by one. *)
Lemma activeWorkersAtEnd_counts_events (finalConfig : Config) (systemInfo : SystemInfo)
    (startTime runNumber : Z) (input : RunInput) (r : RunResult) :
  runSingleBenchmark finalConfig systemInfo startTime runNumber input = Some (Completed r) ->
  activeWorkersAtEnd r = numCores systemInfo - decrements (events input).
Proof.
  intros Hrun. unfold runSingleBenchmark in Hrun.
  destruct (dispatch_completed _ _ _ _ _ _ _ Hrun) as (st & t & fm & ts & -> & _ & Ha).
  cbn [onTimer activeWorkersAtEnd]. rewrite Ha. reflexivity.
Qed.

(** C8 at the failing input: four workers are spawned and worker 0 throws,
    which the runtime reports as 'error' followed by 'exit'.  The other
    workers keep reporting and the run completes, but both handlers
    decrement, so activeWorkersAtEnd is 2 and not 4 - 1 = 3. *)
Theorem one_thrown_worker_counted_twice :
  exists r,
    runSingleBenchmark (sampleConfig 1 None) sampleSystem 0 1 oneWorkerThrows
      = Some (Completed r) /\
    List.length (spawnWorkers sampleSystem) = 4%nat /\
    totalFibonacciIndex r = 2000 /\
    activeWorkersAtEnd r = 2.
Proof.
  eexists. split; [vm_compute; reflexivity|].
  repeat split; reflexivity.
Qed.

(** ** The run's elapsed time *)

(** The duration a run reports is measured from [startTime], the single
    reading taken before the first run; it does not depend on when the run
    was entered. *)
Lemma actualDuration_from_session_start (finalConfig : Config) (systemInfo : SystemInfo)
    (startTime runNumber : Z) (input : RunInput) (r : RunResult) :
  runSingleBenchmark finalConfig systemInfo startTime runNumber input = Some (Completed r) ->
  exists endTime,
    In endTime (flat_map (fun ev => match ev with timer t _ _ => [t] | _ => [] end)
                  (events input)) /\
    actualDurationMs (configuration r)
      = parseFloat (toFixed2 (Z2F (endTime - startTime) / 1000000)) /\
    calculationsPerSecond (performanceMetrics r)
      = Math_round (Z2F (totalFibonacciIndex r)
                    / (Z2F (endTime - startTime) / 1000000 / 1000)).
Proof.
  unfold runSingleBenchmark. generalize (initialState systemInfo input).
  induction (events input) as [ | ev rest IH ]; intros st H; [discriminate|].
  destruct ev as [w data | w | w code | cur again | endTime fm ts]; cbn [dispatch handle] in H.
  - destruct (IH _ H) as (t & Hin & Hd). exists t. split; [exact Hin | exact Hd].
  - destruct (IH _ H) as (t & Hin & Hd). exists t. split; [exact Hin | exact Hd].
  - destruct (IH _ H) as (t & Hin & Hd). exists t. split; [exact Hin | exact Hd].
  - unfold onMemoryCheck in H.
    destruct (overLimit finalConfig (rss cur)); [discriminate|].
    destruct (rss cur >? peakRSSBytes st);
      destruct (IH _ H) as (t & Hin & Hd); exists t; (split; [exact Hin | exact Hd]).
  - injection H as <-. exists endTime. split; [left; reflexivity|].
    split; reflexivity.
Qed.

(** C4 at the failing input: two runs of 2 s, the second entered 4 s after
    the clock was read and finished at 6 s.  Its own elapsed time is
    2000 ms, yet it reports actualDurationMs = 6000 and divides its 3000
    calculations by 6 s: 500 per second, where the first run, with the
    same work in the same time, reports 1500. *)
Theorem second_run_duration_includes_earlier_runs :
  exists session first second,
    runAllBenchmarks (sampleConfig 2 None) sampleSystem 0 twoRunWorld 6000000000
      = Some session /\
    individualRuns (report session) = [first; second] /\
    entered (twoRunWorld 2) = 4000000000 /\
    In (timer 6000000000 (reading (50 * 1024 * 1024)) "2024-01-15T10:30:02.000Z")
      (events (twoRunWorld 2)) /\
    actualDurationMs (configuration first) = 2000%float /\
    actualDurationMs (configuration second) = 6000%float /\
    totalFibonacciIndex first = 3000 /\
    totalFibonacciIndex second = 3000 /\
    calculationsPerSecond (performanceMetrics first) = 1500%float /\
    calculationsPerSecond (performanceMetrics second) = 500%float.
Proof.
  do 3 eexists. split; [vm_compute; reflexivity|].
  split; [reflexivity|]. split; [reflexivity|].
  split; [apply in_or_app; right; left; reflexivity|].
  repeat split; vm_compute; reflexivity.
Qed.

(** ** The memory limit *)

Section MemoryLimit.

Variable finalConfig : Config.
Variable systemInfo : SystemInfo.
Variable startTime : Z.

(** A sample over the limit resolves the promise with the error, provided
    the timer has not fired before it. *)
Lemma dispatch_over_limit (runNumber : Z) (cur again : MemoryReading) (post : list event) :
  overLimit finalConfig (rss cur) = true ->
  forall (pre : list event) (st : RunState),
    noTimer pre = true ->
    dispatch finalConfig systemInfo startTime runNumber st
      (pre ++ memoryCheck cur again :: post)
    = Some (Failed "RAM_LIMIT_EXCEEDED").
Proof.
  intros Hover pre.
  induction pre as [ | ev rest IH ]; intros st Hpre.
  - cbn [app dispatch handle]. unfold onMemoryCheck. rewrite Hover. reflexivity.
  - cbn [noTimer forallb] in Hpre. apply andb_prop in Hpre as [Hev Hrest].
    destruct ev as [w data | w | w code | c a | t fm ts];
      cbn [app dispatch handle]; try discriminate; try (apply IH; exact Hrest).
    unfold onMemoryCheck.
    destruct (overLimit finalConfig (rss c)); [reflexivity|].
    destruct (rss c >? peakRSSBytes st); apply IH; exact Hrest.
Qed.

Lemma completed_runNumber (n : Z) (input : RunInput) (r : RunResult) :
  runSingleBenchmark finalConfig systemInfo startTime n input = Some (Completed r) ->
  runNumber r = n.
Proof.
  intros H. unfold runSingleBenchmark in H.
  destruct (dispatch_completed _ _ _ _ _ _ _ H) as (st & t & fm & ts & -> & _).
  reflexivity.
Qed.

(** The loop over runs that complete, followed by one that fails: the
    completed results are collected, the failing run is the last one
    runSingleBenchmark is called for. *)
Lemma sequenceRuns_until_failure (world : Z -> RunInput) (k : Z) (reason : string)
    (later : list Z) :
  runSingleBenchmark finalConfig systemInfo startTime k (world k) = Some (Failed reason) ->
  forall (before : list Z) (allRuns : list RunResult) (called : list Z) (waits : nat),
    (forall j, In j before ->
       exists r, runSingleBenchmark finalConfig systemInfo startTime j (world j)
                 = Some (Completed r)) ->
    exists (collected : list RunResult) (waits' : nat),
      sequenceRuns finalConfig systemInfo startTime world (before ++ k :: later)
        allRuns called waits
      = Some (allRuns ++ collected, called ++ before ++ [k], waits', Some (k, reason)) /\
      map runNumber collected = before.
Proof.
  intros Hk before.
  induction before as [ | j rest IH ]; intros allRuns called waits Hbefore.
  - exists [], waits. cbn [app sequenceRuns map]. rewrite Hk, app_nil_r. split; reflexivity.
  - destruct (Hbefore j (or_introl eq_refl)) as (r & Hr).
    cbn [app sequenceRuns]. rewrite Hr.
    destruct (IH (allRuns ++ [r]) (called ++ [j])
                (if j <? runs finalConfig then S waits else waits)
                (fun j' Hin => Hbefore j' (or_intror Hin)))
      as (collected & waits' & Hseq & Hnum).
    exists (r :: collected), waits'. split.
    + rewrite Hseq, <- !app_assoc. reflexivity.
    + cbn [map]. rewrite Hnum, (completed_runNumber j (world j) r Hr). reflexivity.
Qed.

Lemma runNumbers_split (k : Z) :
  1 <= k <= runs finalConfig ->
  runNumbers finalConfig
  = map Z.of_nat (seq 1 (Z.to_nat (k - 1)))
    ++ k :: map Z.of_nat (seq (S (Z.to_nat k)) (Z.to_nat (runs finalConfig - k))).
Proof.
  intros Hk. unfold runNumbers.
  replace (Z.to_nat (runs finalConfig))
    with (Z.to_nat (k - 1) + S (Z.to_nat (runs finalConfig - k)))%nat by lia.
  rewrite seq_app, map_app. cbn [seq map]. f_equal.
  replace (1 + Z.to_nat (k - 1))%nat with (Z.to_nat k) by lia.
  rewrite Z2Nat.id by lia. reflexivity.
Qed.

End MemoryLimit.

(** C2: with maxMemoryMB = M, a run in which a memory sample reads more
    than M * 1024 * 1024 resident bytes before the timer has fired ends
    with the outcome RAM_LIMIT_EXCEEDED at that sample, whatever was still
    to come (the timer included).  When the runs before it completed, no
    RunResult is appended for it, and runSingleBenchmark is not called for
    any later run: the report holds exactly the earlier runs. *)
Theorem ram_limit_aborts_run_and_sequence (finalConfig : Config) (systemInfo : SystemInfo)
    (startTime now M k : Z) (world : Z -> RunInput)
    (pre post : list event) (cur again : MemoryReading) :
  maxRamMB finalConfig = Some M ->
  1 <= k <= runs finalConfig ->
  (forall j, 1 <= j < k ->
     exists r, runSingleBenchmark finalConfig systemInfo startTime j (world j)
               = Some (Completed r)) ->
  events (world k) = pre ++ memoryCheck cur again :: post ->
  noTimer pre = true ->
  rss cur > M * 1024 * 1024 ->
  runSingleBenchmark finalConfig systemInfo startTime k (world k)
    = Some (Failed "RAM_LIMIT_EXCEEDED") /\
  exists session,
    runAllBenchmarks finalConfig systemInfo startTime world now = Some session /\
    failure session = Some (k, "RAM_LIMIT_EXCEEDED"%string) /\
    invoked session = map Z.of_nat (seq 1 (Z.to_nat k)) /\
    map runNumber (individualRuns (report session))
      = map Z.of_nat (seq 1 (Z.to_nat (k - 1))) /\
    completedRuns (benchmarkInfo (report session)) = k - 1.
Proof.
  intros HM Hk Hearlier Hevents Hpre Hrss.
  assert (Hover : overLimit finalConfig (rss cur) = true).
  { unfold overLimit, MAX_RAM_MB. rewrite HM. apply Z.gtb_lt. lia. }
  assert (Hfail : runSingleBenchmark finalConfig systemInfo startTime k (world k)
                  = Some (Failed "RAM_LIMIT_EXCEEDED")).
  { unfold runSingleBenchmark. rewrite Hevents.
    apply dispatch_over_limit; assumption. }
  split; [exact Hfail|].
  destruct (sequenceRuns_until_failure finalConfig systemInfo startTime world k
              "RAM_LIMIT_EXCEEDED"
              (map Z.of_nat (seq (S (Z.to_nat k)) (Z.to_nat (runs finalConfig - k))))
              Hfail (map Z.of_nat (seq 1 (Z.to_nat (k - 1)))) [] [] 0%nat)
    as (collected & waits & Hseq & Hnum).
  { intros j Hin. apply Hearlier.
    apply in_map_iff in Hin as (i & <- & Hi). apply in_seq in Hi. lia. }
  unfold runAllBenchmarks. rewrite (runNumbers_split finalConfig k Hk), Hseq.
  eexists. split; [reflexivity|].
  cbn [failure invoked report aggregate individualRuns benchmarkInfo completedRuns app].
  split; [reflexivity|]. split.
  - replace (Z.to_nat k) with (Z.to_nat (k - 1) + 1)%nat by lia.
    rewrite seq_app, map_app. cbn [seq map].
    replace (Z.of_nat (1 + Z.to_nat (k - 1))) with k by lia. reflexivity.
  - split; [exact Hnum|].
    rewrite <- (length_map runNumber), Hnum, length_map, length_seq. lia.
Qed.

Lemma ram_limit_aborts_run_and_sequence_witness :
  maxRamMB (sampleConfig 3 (Some 100)) = Some 100 /\
  1 <= 2 <= runs (sampleConfig 3 (Some 100)) /\
  120 * 1024 * 1024 > 100 * 1024 * 1024 /\
  runSingleBenchmark (sampleConfig 3 (Some 100)) sampleSystem 0 2 (abortingWorld 2)
    = Some (Failed "RAM_LIMIT_EXCEEDED") /\
  exists session,
    runAllBenchmarks (sampleConfig 3 (Some 100)) sampleSystem 0 abortingWorld 5000000000
      = Some session /\
    failure session = Some (2, "RAM_LIMIT_EXCEEDED"%string) /\
    invoked session = map Z.of_nat (seq 1 (Z.to_nat 2)) /\
    map runNumber (individualRuns (report session))
      = map Z.of_nat (seq 1 (Z.to_nat (2 - 1))) /\
    completedRuns (benchmarkInfo (report session)) = 2 - 1.
Proof.
  assert (H1 : maxRamMB (sampleConfig 3 (Some 100)) = Some 100) by reflexivity.
  assert (H2 : 1 <= 2 <= runs (sampleConfig 3 (Some 100))) by (cbn; lia).
  assert (H3 : rss (reading (120 * 1024 * 1024)) > 100 * 1024 * 1024) by (cbn; lia).
  split; [exact H1|]. split; [exact H2|]. split; [exact H3|].
  apply (ram_limit_aborts_run_and_sequence (sampleConfig 3 (Some 100)) sampleSystem
           0 5000000000 100 2 abortingWorld
           (repeat (message 0 sampleReport) 10
            ++ [memoryCheck (reading (60 * 1024 * 1024)) (reading (60 * 1024 * 1024))]
            ++ repeat (message 1 sampleReport) 10)
           [timer 2000000000 (reading (50 * 1024 * 1024)) "2024-01-15T10:30:02.000Z"]
           (reading (120 * 1024 * 1024)) (reading (120 * 1024 * 1024)) H1 H2).
  - intros j Hj. assert (j = 1) as -> by lia.
    eexists. vm_compute. reflexivity.
  - reflexivity.
  - reflexivity.
  - exact H3.
Defined.

(** ** Memory efficiency *)

Lemma float_neq (x y : float) : Prim2SF x <> Prim2SF y -> x <> y.
Proof. intros H E. apply H. rewrite E. reflexivity. Qed.

(** C5 as stated fails: with a peak of 2 GiB the program divides by the
    figure 2.00 of the text 2.00 GB and reports 500000 where calculations
    per megabyte times 1000 is 488; with a peak of 512 KiB it divides by
    512.00; and in the megabyte range it divides by the two-decimal figure
    (1.00 for 1052770 bytes), not by the exact quotient. *)
Lemma memoryEfficiency_counterexample :
  (memoryEfficiencyOf 1000 (getMemoryUsage (reading (2 * 1024 * 1024 * 1024))) = 500000%float /\
   memoryEfficiencyPerMB 1000 (2 * 1024 * 1024 * 1024) = 488%float /\
   memoryEfficiencyOf 1000 (getMemoryUsage (reading (2 * 1024 * 1024 * 1024)))
     <> memoryEfficiencyPerMB 1000 (2 * 1024 * 1024 * 1024)) /\
  (memoryEfficiencyOf 1000 (getMemoryUsage (reading (512 * 1024))) = 1953%float /\
   memoryEfficiencyPerMB 1000 (512 * 1024) = 2000000%float /\
   memoryEfficiencyOf 1000 (getMemoryUsage (reading (512 * 1024)))
     <> memoryEfficiencyPerMB 1000 (512 * 1024)) /\
  (memoryEfficiencyOf 1000 (getMemoryUsage (reading 1052770)) = 1000000%float /\
   memoryEfficiencyPerMB 1000 1052770 = 996016%float /\
   memoryEfficiencyOf 1000 (getMemoryUsage (reading 1052770))
     <> memoryEfficiencyPerMB 1000 1052770).
Proof.
  repeat split; try (vm_compute; reflexivity);
    apply float_neq; vm_compute; discriminate.
Qed.

(** The formula on a formatted peak in the megabyte range. *)
Lemma memoryEfficiencyOf_megabytes (totalFibIndex : Z) (usage : MemoryReading) :
  1024 * 1024 <= rss usage < 1024 * 1024 * 1024 ->
  memoryEfficiencyOf totalFibIndex (getMemoryUsage usage)
  = Math_round (Z2F totalFibIndex
                / (Z2F ((200 * rss usage + 1048576) / 2097152) / 100) * 1000)%float.
Proof.
  intros HP. unfold memoryEfficiencyOf. cbn [getMemoryUsage mu_rss].
  rewrite (formatBytes_megabytes (rss usage) HP). reflexivity.
Qed.

(** C5 (amended): for every completed run with totalUnits = U whose peak
    text was formatted from a reading of P resident bytes in the megabyte
    range, 2^20 <= P < 2^30, memoryEfficiency is round(U / d * 1000) where d
    is the two-decimal figure of that text: h / 100 with
    h = floor((200 P + 2^20) / 2^21), that is P / 2^20 rounded half up to
    hundredths. *)
Theorem memoryEfficiency_megabyte_range (finalConfig : Config) (systemInfo : SystemInfo)
    (startTime runNumber : Z) (input : RunInput) (r : RunResult) (usage : MemoryReading) :
  runSingleBenchmark finalConfig systemInfo startTime runNumber input = Some (Completed r) ->
  peakMemory r = getMemoryUsage usage ->
  1024 * 1024 <= rss usage < 1024 * 1024 * 1024 ->
  suffix (mu_rss (peakMemory r)) = MB /\
  memoryEfficiency (performanceMetrics r)
  = Math_round (Z2F (totalFibonacciIndex r)
                / (Z2F ((200 * rss usage + 1048576) / 2097152) / 100) * 1000)%float.
Proof.
  intros Hrun Hpeak HP. unfold runSingleBenchmark in Hrun.
  destruct (dispatch_completed _ _ _ _ _ _ _ Hrun) as (st & t & fm & ts & -> & _ & _).
  cbn [onTimer peakMemory performanceMetrics deriveMetrics memoryEfficiency
       totalFibonacciIndex] in *.
  rewrite Hpeak. split.
  - cbn [getMemoryUsage mu_rss]. rewrite (formatBytes_megabytes (rss usage) HP). reflexivity.
  - apply memoryEfficiencyOf_megabytes. exact HP.
Qed.

Lemma memoryEfficiency_megabyte_range_witness :
  exists r,
    runSingleBenchmark (sampleConfig 1 None) sampleSystem 0 1 oneReportRun
      = Some (Completed r) /\
    peakMemory r = getMemoryUsage (reading (50 * 1024 * 1024)) /\
    1024 * 1024 <= rss (reading (50 * 1024 * 1024)) < 1024 * 1024 * 1024 /\
    suffix (mu_rss (peakMemory r)) = MB /\
    memoryEfficiency (performanceMetrics r)
    = Math_round (Z2F (totalFibonacciIndex r)
                  / (Z2F ((200 * rss (reading (50 * 1024 * 1024)) + 1048576) / 2097152) / 100)
                  * 1000)%float.
Proof.
  eexists. split; [reflexivity|].
  assert (HP : 1024 * 1024 <= rss (reading (50 * 1024 * 1024)) < 1024 * 1024 * 1024)
    by (cbn; lia).
  split; [reflexivity|]. split; [exact HP|].
  exact (memoryEfficiency_megabyte_range (sampleConfig 1 None) sampleSystem 0 1
           oneReportRun _ (reading (50 * 1024 * 1024)) eq_refl eq_refl HP).
Defined.

(** Outside the megabyte range the same formula divides by the figure of
    another unit: for a peak of at least 1 GiB, by the count of gigabytes. *)
Lemma memoryEfficiency_gigabyte_range (totalFibIndex : Z) (usage : MemoryReading) :
  1024 * 1024 * 1024 <= rss usage <= 9007199254740992 ->
  suffix (mu_rss (getMemoryUsage usage)) = GB /\
  memoryEfficiencyOf totalFibIndex (getMemoryUsage usage)
  = Math_round (Z2F totalFibIndex
                / (Z2F ((200 * rss usage + 1073741824) / 2147483648) / 100) * 1000)%float.
Proof.
  intros HP. unfold memoryEfficiencyOf. cbn [getMemoryUsage mu_rss].
  rewrite (formatBytes_gigabytes (rss usage) HP). split; reflexivity.
Qed.

(** ** The core count *)

(** C6 at the failing input: os.cpus() returns an empty list.
    getSystemInfo guards the empty list for the model only (the text N/A);
    the count is cpus.length = 0 and numCores copies it, where the claim
    gives 1.  No worker is spawned, the run still completes when its timer
    fires, and the per-core average and the score divide 0 by 0 and are
    NaN. *)
Theorem empty_cpu_list_gives_zero_cores :
  (forall (os_hostname : string) (totalMemoryBytes : Z),
     let systemInfo := getSystemInfo os_hostname [] totalMemoryBytes in
     model (cpu systemInfo) = "N/A"%string /\
     numCores systemInfo = 0 /\
     spawnWorkers systemInfo = []) /\
  exists r,
    runSingleBenchmark (sampleConfig 1 None) noCpuSystem 0 1 idleRun = Some (Completed r) /\
    cpuModel r = "N/A"%string /\
    cpuCores r = 0 /\
    activeWorkersAtEnd r = 0 /\
    totalFibonacciIndex r = 0 /\
    averageFibonacciIndexPerCore r = nan /\
    overallScore (performanceMetrics r) = nan.
Proof.
  split.
  - intros os_hostname totalMemoryBytes. cbn zeta.
    unfold spawnWorkers, numCores. cbn [getSystemInfo cpu cores model List.length].
    repeat split; reflexivity.
  - eexists. split; [vm_compute; reflexivity|].
    repeat split; reflexivity.
Qed.

(** ** Aggregation over no runs *)

(** C7 as stated fails: when the first run goes over the limit the report
    is built over no run results, and its averages and extremes are NaN
    and infinities, none of which is a reportable number. *)
Lemma empty_aggregate_counterexample :
  exists session,
    runAllBenchmarks (sampleConfig 3 (Some 100)) sampleSystem 0 exhaustedWorld 1000000000
      = Some session /\
    individualRuns (report session) = [] /\
    is_reportable (averageScore (aggregatedResults (report session))) = false /\
    is_reportable (bestScore (aggregatedResults (report session))) = false /\
    is_reportable (worstScore (aggregatedResults (report session))) = false /\
    is_reportable (scoreVariance (aggregatedResults (report session))) = false.
Proof.
  eexists. split; [vm_compute; reflexivity|].
  repeat split; vm_compute; reflexivity.
Qed.

(** C7 (amended): when zero run results were collected the report is still
    produced, with completedRuns = 0 and totalCalculations = 0; the
    averages divide 0 by 0 and are NaN, bestScore is the maximum of nothing,
    -Infinity, worstScore the minimum of nothing, +Infinity, and
    scoreVariance their difference, -Infinity. *)
Theorem empty_aggregate (finalConfig : Config) (systemInfo : SystemInfo)
    (startTime now : Z) (world : Z -> RunInput) (session : Session) :
  runAllBenchmarks finalConfig systemInfo startTime world now = Some session ->
  individualRuns (report session) = [] ->
  completedRuns (benchmarkInfo (report session)) = 0 /\
  totalCalculations (aggregatedResults (report session)) = 0 /\
  averageCalculationsPerRun (aggregatedResults (report session)) = nan /\
  averageScore (aggregatedResults (report session)) = nan /\
  bestScore (aggregatedResults (report session)) = neg_infinity /\
  worstScore (aggregatedResults (report session)) = infinity /\
  scoreVariance (aggregatedResults (report session)) = neg_infinity.
Proof.
  unfold runAllBenchmarks.
  destruct (sequenceRuns finalConfig systemInfo startTime world (runNumbers finalConfig) [] [] 0)
    as [[[[allRuns called] waits] failed] | ]; [| discriminate].
  intros H. injection H as <-. cbn [report aggregate individualRuns].
  intros ->.
  cbn [aggregate benchmarkInfo aggregatedResults completedRuns totalCalculations
       averageCalculationsPerRun averageScore bestScore worstScore scoreVariance
       List.length fold_left map].
  repeat split; reflexivity.
Qed.

Lemma empty_aggregate_witness :
  exists session,
    runAllBenchmarks (sampleConfig 3 (Some 100)) sampleSystem 0 exhaustedWorld 1000000000
      = Some session /\
    individualRuns (report session) = [] /\
    averageScore (aggregatedResults (report session)) = nan /\
    bestScore (aggregatedResults (report session)) = neg_infinity.
Proof.
  eexists. split; [vm_compute; reflexivity|].
  split; [reflexivity|].
  pose proof (empty_aggregate (sampleConfig 3 (Some 100)) sampleSystem 0 1000000000
                exhaustedWorld _ eq_refl eq_refl) as H.
  split; [apply H | apply H].
Defined.

(** * Further properties of the program *)

(** ** Command line *)

(** A Number above zero is neither zero nor NaN. *)
Lemma positive_number (x : float) :
  (0 <? x)%float = true -> is_zero x = false /\ is_nan x = false.
Proof.
  intros H. unfold is_zero, is_nan.
  rewrite ltb_spec in H. rewrite !FloatAxioms.eqb_spec.
  change (Prim2SF 0) with (S754_zero false) in *.
  change (Prim2SF zero) with (S754_zero false).
  destruct (Prim2SF x) as [s | s | | s m e]; cbn in H; try discriminate;
    destruct s; try discriminate; cbn.
  - split; reflexivity.
  - unfold SFeqb, SFcompare. rewrite Z.compare_refl, Pos.compare_cont_refl.
    split; reflexivity.
Qed.

Lemma positive_truthy (x : float) : (0 <? x)%float = true -> truthy (JNum x) = true.
Proof.
  intros H. destruct (positive_number x H) as [Hz Hn].
  cbn [truthy]. rewrite Hz, Hn. reflexivity.
Qed.

Lemma acceptable_positive (x : float) : acceptable x = true -> (0 <? x)%float = true.
Proof. unfold acceptable. intros H. apply andb_prop in H. apply H. Qed.

Section CommandLineFacts.

Variable parseInt : jsval -> float.

(** Invariant principle for the loop of parseArguments: a property kept by
    each of the six assignments holds of the result. *)
Section Invariant.

Variable P : CliConfig -> Prop.

Hypothesis keep_help : forall c,
  P c -> P {| c_duration := c_duration c; c_maxRamMB := c_maxRamMB c; c_help := true;
              c_configFile := c_configFile c; c_outputFile := c_outputFile c;
              c_runs := c_runs c |}.
Hypothesis keep_configFile : forall c v,
  P c -> P {| c_duration := c_duration c; c_maxRamMB := c_maxRamMB c; c_help := c_help c;
              c_configFile := v; c_outputFile := c_outputFile c; c_runs := c_runs c |}.
Hypothesis keep_duration : forall c value,
  acceptable value = true ->
  P c -> P {| c_duration := value; c_maxRamMB := c_maxRamMB c; c_help := c_help c;
              c_configFile := c_configFile c; c_outputFile := c_outputFile c;
              c_runs := c_runs c |}.
Hypothesis keep_maxRamMB : forall c value,
  acceptable value = true ->
  P c -> P {| c_duration := c_duration c; c_maxRamMB := JNum value; c_help := c_help c;
              c_configFile := c_configFile c; c_outputFile := c_outputFile c;
              c_runs := c_runs c |}.
Hypothesis keep_outputFile : forall c v,
  P c -> P {| c_duration := c_duration c; c_maxRamMB := c_maxRamMB c; c_help := c_help c;
              c_configFile := c_configFile c; c_outputFile := v; c_runs := c_runs c |}.
Hypothesis keep_runs : forall c value,
  acceptable value = true ->
  P c -> P {| c_duration := c_duration c; c_maxRamMB := c_maxRamMB c; c_help := c_help c;
              c_configFile := c_configFile c; c_outputFile := c_outputFile c;
              c_runs := value |}.

Lemma parseFrom_invariant_bounded (n : nat) :
  forall args config,
    (List.length args <= n)%nat -> P config -> P (parseFrom parseInt config args).
Proof.
  induction n as [ | n IH ]; intros args config Hlen Hc.
  - destruct args; [exact Hc | cbn in Hlen; lia].
  - destruct args as [ | arg rest ]; [exact Hc|].
    cbn [List.length] in Hlen.
    assert (Hrest : forall c, P c -> P (parseFrom parseInt c rest))
      by (intros c Hp; apply IH; [lia | exact Hp]).
    assert (Hskip : forall c, P c ->
              P match rest with
                | _ :: rest' => parseFrom parseInt c rest'
                | [] => c
                end).
    { intros c Hp. destruct rest as [ | v rest' ]; [exact Hp|].
      apply IH; [cbn [List.length] in Hlen; lia | exact Hp]. }
    cbn [parseFrom]. cbv zeta.
    destruct (isFlag arg "--help" "-h"); [apply Hrest, keep_help, Hc|].
    destruct (isFlag arg "--config" "-c"); [apply Hskip, keep_configFile, Hc|].
    destruct (isFlag arg "--duration" "-d").
    { destruct (acceptable (parseInt (slot rest))) eqn:Hv;
        [apply Hskip, keep_duration; assumption | apply Hrest, Hc]. }
    destruct (isFlag arg "--max-ram" "-r").
    { destruct (acceptable (parseInt (slot rest))) eqn:Hv;
        [apply Hskip, keep_maxRamMB; assumption | apply Hrest, Hc]. }
    destruct (isFlag arg "--output" "-o"); [apply Hskip, keep_outputFile, Hc|].
    destruct (isFlag arg "--runs" "-n").
    { destruct (acceptable (parseInt (slot rest))) eqn:Hv;
        [apply Hskip, keep_runs; assumption | apply Hrest, Hc]. }
    apply Hrest, Hc.
Qed.

Lemma parseFrom_invariant (args : list string) (config : CliConfig) :
  P config -> P (parseFrom parseInt config args).
Proof. apply (parseFrom_invariant_bounded (List.length args)). lia. Qed.

End Invariant.

Lemma parseArguments_wellFormed (args : list string) :
  wellFormedCli (parseArguments parseInt args).
Proof.
  unfold parseArguments.
  apply (parseFrom_invariant wellFormedCli); unfold wellFormedCli;
    cbn [c_duration c_runs c_maxRamMB].
  - intros c H. exact H.
  - intros c v H. exact H.
  - intros c value Hv (Hd & Hr & Hm). repeat split; try assumption.
    apply acceptable_positive, Hv.
  - intros c value Hv (Hd & Hr & Hm). repeat split; try assumption.
    right. exists value. split; [reflexivity | apply acceptable_positive, Hv].
  - intros c v H. exact H.
  - intros c value Hv (Hd & Hr & Hm). repeat split; try assumption.
    apply acceptable_positive, Hv.
  - repeat split; try reflexivity. left. reflexivity.
Qed.

Lemma parseFrom_help_kept (args : list string) (config : CliConfig) :
  c_help config = true -> c_help (parseFrom parseInt config args) = true.
Proof.
  apply (parseFrom_invariant (fun c => c_help c = true)); cbn [c_help]; auto.
Qed.

Lemma parseFrom_unrecognised (args : list string) :
  forall config,
    Forall (fun arg => recognised arg = false) args ->
    parseFrom parseInt config args = config.
Proof.
  induction args as [ | arg rest IH ]; intros config Hall; [reflexivity|].
  inversion Hall as [ | ? ? Harg Hrest ]; subst.
  unfold recognised in Harg. rewrite !orb_false_iff in Harg.
  destruct Harg as (((((H1 & H2) & H3) & H4) & H5) & H6).
  cbn [parseFrom]. rewrite H1, H2, H3, H4, H5, H6.
  apply IH, Hrest.
Qed.

End CommandLineFacts.

(** X1: whatever the arguments are (and whatever parseInt returns on
    them), the settings parseArguments returns are usable: duration and runs
    are Numbers above zero, hence truthy, and maxRamMB is null or a Number
    above zero (then truthy); in particular it is never undefined, and a
    truthy maxRamMB is a Number above zero. *)
Theorem parseArguments_settings_positive (parseInt : jsval -> float) (args : list string) :
  let config := parseArguments parseInt args in
  (0 <? c_duration config)%float = true /\
  (0 <? c_runs config)%float = true /\
  truthy (JNum (c_duration config)) = true /\
  truthy (JNum (c_runs config)) = true /\
  (c_maxRamMB config = JNull \/
   exists x, c_maxRamMB config = JNum x /\ (0 <? x)%float = true /\
             truthy (c_maxRamMB config) = true) /\
  c_maxRamMB config <> JUndefined /\
  (truthy (c_maxRamMB config) = true ->
   exists x, c_maxRamMB config = JNum x /\ (0 <? x)%float = true).
Proof.
  cbn zeta.
  destruct (parseArguments_wellFormed parseInt args) as (Hd & Hr & Hm).
  split; [exact Hd|]. split; [exact Hr|].
  split; [apply positive_truthy, Hd|]. split; [apply positive_truthy, Hr|].
  destruct Hm as [Hnull | (x & Hx & Hpos)].
  - rewrite Hnull. split; [left; reflexivity|].
    split; [discriminate | intros H; discriminate H].
  - rewrite Hx. split.
    + right. exists x. split; [reflexivity|]. split; [exact Hpos|].
      apply positive_truthy, Hpos.
    + split; [discriminate|]. intros _. exists x. split; [reflexivity | exact Hpos].
Qed.

(** X2: arguments that are not option names are ignored: when none of the
    arguments is one of the twelve option names, parseArguments returns the
    defaults (30 seconds, one run, no limit, no files, no help). *)
Theorem parseArguments_ignores_unknown (parseInt : jsval -> float)
    (readConfig : string -> option jsval) (args : list string) :
  Forall (fun arg => recognised arg = false) args ->
  parseArguments parseInt args = defaultCli /\
  startup parseInt readConfig args
  = Start {| fin_duration := JNum 30; fin_maxRamMB := JNull; fin_outputFile := JNull;
             fin_runs := JNum 1; fin_postUrl := JNull |} false.
Proof.
  intros Hall.
  assert (H : parseArguments parseInt args = defaultCli)
    by (apply parseFrom_unrecognised, Hall).
  split; [exact H|].
  unfold startup. rewrite H. reflexivity.
Qed.

Lemma parseArguments_ignores_unknown_witness :
  Forall (fun arg => recognised arg = false) ["--invalid-option"; "45"]%string /\
  parseArguments sampleParseInt ["--invalid-option"; "45"]%string = defaultCli.
Proof.
  assert (H : Forall (fun arg => recognised arg = false) ["--invalid-option"; "45"]%string)
    by (repeat constructor).
  split; [exact H|].
  apply (parseArguments_ignores_unknown sampleParseInt (fun _ => None) _ H).
Defined.

(** X3: when the first argument is --help or -h, the program shows the help
    and exits whatever follows: no later argument clears the flag, no
    configuration file is read and no run is started. *)
Theorem help_first_shows_help (parseInt : jsval -> float)
    (readConfig : string -> option jsval) (arg : string) (rest : list string) :
  isFlag arg "--help" "-h" = true ->
  c_help (parseArguments parseInt (arg :: rest)) = true /\
  startup parseInt readConfig (arg :: rest) = ShowHelp.
Proof.
  intros Hflag.
  assert (H : c_help (parseArguments parseInt (arg :: rest)) = true).
  { unfold parseArguments. cbn [parseFrom]. rewrite Hflag.
    apply parseFrom_help_kept. reflexivity. }
  split; [exact H|].
  unfold startup. rewrite H. reflexivity.
Qed.

Lemma help_first_shows_help_witness :
  isFlag "-h" "--help" "-h" = true /\
  startup sampleParseInt (fun _ => None) ["-h"; "-d"; "5"]%string = ShowHelp.
Proof.
  assert (H : isFlag "-h" "--help" "-h" = true) by reflexivity.
  split; [exact H|].
  apply (help_first_shows_help sampleParseInt (fun _ => None) "-h" ["-d"; "5"]%string H).
Defined.

(** ** Configuration file *)

Lemma validDuration_number (d : jsval) :
  validDuration d = true <-> exists x, d = JNum x /\ (0 <? x)%float = true.
Proof.
  split.
  - unfold validDuration. intros H. apply andb_prop in H as [_ H].
    destruct d; try discriminate. eexists. split; [reflexivity | exact H].
  - intros (x & -> & Hx). unfold validDuration.
    rewrite (positive_truthy x Hx), Hx. reflexivity.
Qed.

(** X4: loadConfigFile returns a configuration exactly when the file could
    be read and parsed, the document is an object, and its duration is a
    Number above zero; the other keys are then taken with their defaults.
    A document whose duration is missing, not a Number or not above zero is
    dropped as a whole, whatever else it sets. *)
Theorem loadConfigFile_accepts (parsed : option jsval) (f : FileConfig) (warned : bool) :
  loadConfigFile parsed = (Some f, warned) <->
  exists fields x,
    parsed = Some (JObj fields) /\
    lookup fields "duration" = JNum x /\
    (0 <? x)%float = true /\
    warned = false /\
    f = {| f_duration := JNum x;
           f_maxRamMB := orElse (lookup fields "maxRamMB") JNull;
           f_outputFile := orElse (lookup fields "outputFile") JNull;
           f_runs := orElse (lookup fields "runs") (JNum 1);
           f_postUrl := orElse (lookup fields "postUrl") JNull |}.
Proof.
  split.
  - unfold loadConfigFile. intros H.
    destruct parsed as [config | ]; [| discriminate].
    destruct (getProp config "duration") as [d | ] eqn:Hd; [| discriminate].
    destruct (validDuration d) eqn:Hv; [| discriminate].
    apply validDuration_number in Hv as (x & -> & Hx).
    destruct config; cbn [getProp] in Hd; try discriminate;
      injection Hd as Hd; try discriminate.
    injection H as <- <-.
    exists fields, x. unfold prop. cbn [getProp]. rewrite Hd.
    repeat split; assumption || reflexivity.
  - intros (fields & x & -> & Hd & Hx & -> & ->).
    unfold loadConfigFile, prop. cbn [getProp]. rewrite Hd.
    replace (validDuration (JNum x)) with true
      by (symmetry; apply validDuration_number; eauto).
    reflexivity.
Qed.

Lemma orElse_truthy (a b : jsval) : truthy b = true -> truthy (orElse a b) = true.
Proof. intros Hb. unfold orElse. destruct (truthy a) eqn:Ha; assumption. Qed.

Lemma orElse_null (a : jsval) : truthy (orElse a JNull) = true \/ orElse a JNull = JNull.
Proof. unfold orElse. destruct (truthy a) eqn:Ha; [left; exact Ha | right; reflexivity]. Qed.

(** X5: a configuration returned by loadConfigFile has no falsy setting
    left: runs is truthy (a missing, zero or empty value became 1), and
    each of maxRamMB, outputFile and postUrl is truthy or null. *)
Theorem loadConfigFile_defaults (parsed : option jsval) (f : FileConfig) :
  fst (loadConfigFile parsed) = Some f ->
  truthy (f_duration f) = true /\
  truthy (f_runs f) = true /\
  (truthy (f_maxRamMB f) = true \/ f_maxRamMB f = JNull) /\
  (truthy (f_outputFile f) = true \/ f_outputFile f = JNull) /\
  (truthy (f_postUrl f) = true \/ f_postUrl f = JNull).
Proof.
  unfold loadConfigFile. intros H.
  destruct parsed as [config | ]; [| discriminate].
  destruct (getProp config "duration") as [d | ]; [| discriminate].
  destruct (validDuration d) eqn:Hv; [| discriminate].
  cbn [fst] in H. injection H as <-.
  cbn [f_duration f_runs f_maxRamMB f_outputFile f_postUrl].
  split; [unfold validDuration in Hv; apply andb_prop in Hv; apply Hv|].
  split; [apply orElse_truthy; reflexivity|].
  repeat split; apply orElse_null.
Qed.

Lemma loadConfigFile_accepts_witness :
  loadConfigFile (Some sampleDocument)
  = (Some {| f_duration := JNum 3; f_maxRamMB := JNum 500;
             f_outputFile := JStr "results.json"; f_runs := JNum 1;
             f_postUrl := JNull |}, false).
Proof.
  apply (proj2 (loadConfigFile_accepts (Some sampleDocument) _ false)).
  eexists. exists 3%float.
  split; [reflexivity|]. split; [reflexivity|]. split; [reflexivity|].
  split; reflexivity.
Defined.

Lemma loadConfigFile_defaults_witness :
  exists f,
    fst (loadConfigFile (Some sampleDocument)) = Some f /\
    truthy (f_runs f) = true /\
    (truthy (f_postUrl f) = true \/ f_postUrl f = JNull).
Proof.
  eexists. split; [reflexivity|].
  pose proof (loadConfigFile_defaults (Some sampleDocument) _ eq_refl) as H.
  split; apply H.
Defined.

(** ** The merged configuration *)

(** X6: the configuration file never changes duration, runs or maxRamMB:
    whatever the arguments and whatever the file at --config holds, the
    final values of these three settings are those parseArguments returned
    (the command-line values, or the defaults 30, 1 and null).  The output
    file named on the command line also comes first; only when it is
    missing or empty, and for postUrl, does the file matter. *)
Theorem file_cannot_override_cli (parseInt : jsval -> float)
    (readConfig : string -> option jsval) (args : list string)
    (finalConfig : FinalConfig) (warned : bool) :
  startup parseInt readConfig args = Start finalConfig warned ->
  let config := parseArguments parseInt args in
  fin_duration finalConfig = JNum (c_duration config) /\
  fin_runs finalConfig = JNum (c_runs config) /\
  fin_maxRamMB finalConfig = c_maxRamMB config /\
  (truthy (c_outputFile config) = true -> fin_outputFile finalConfig = c_outputFile config) /\
  (truthy (c_configFile config) = false -> fin_postUrl finalConfig = JNull).
Proof.
  cbn zeta. unfold startup.
  destruct (parseArguments_wellFormed parseInt args) as (Hd & Hr & Hm).
  destruct (c_help (parseArguments parseInt args)); [discriminate|].
  intros H. injection H as <- _.
  set (config := parseArguments parseInt args) in *.
  unfold mergeConfig.
  cbn [fin_duration fin_runs fin_maxRamMB fin_outputFile fin_postUrl].
  unfold orElse.
  rewrite (positive_truthy _ Hd), (positive_truthy _ Hr).
  split; [reflexivity|]. split; [reflexivity|]. split.
  - destruct Hm as [-> | (x & -> & _)]; reflexivity.
  - split.
    + intros Ho. rewrite Ho. reflexivity.
    + intros Hc. rewrite Hc. reflexivity.
Qed.

Lemma file_cannot_override_cli_witness :
  exists finalConfig,
    startup sampleParseInt (fun _ => Some sampleDocument) ["-c"; "config.json"]%string
      = Start finalConfig false /\
    fin_duration finalConfig = JNum 30 /\
    fin_runs finalConfig = JNum 1 /\
    fin_maxRamMB finalConfig = JNull.
Proof.
  eexists. split; [reflexivity|].
  pose proof (file_cannot_override_cli sampleParseInt (fun _ => Some sampleDocument)
                ["-c"; "config.json"]%string _ false eq_refl) as H.
  cbn zeta in H. destruct H as (Hd & Hr & Hm & _).
  split; [exact Hd|]. split; [exact Hr | exact Hm].
Defined.

(** ** The worker and its messages *)

Lemma calculateFibonacci_fib (k fuel : nat) :
  (k <= fuel)%nat -> calculateFibonacci fuel (Z.of_nat k) = Some (fib k).
Proof.
  intros Hfuel. unfold calculateFibonacci.
  destruct (Z.leb_spec (Z.of_nat k) 1) as [Hle | Hgt].
  - destruct k as [ | [ | k ] ]; try reflexivity. lia.
  - exact (fib_loop_invariant fuel k 2 ltac:(lia) ltac:(lia) ltac:(lia)).
Qed.

Lemma fib_nonneg (k : nat) : 0 <= fib k /\ 0 <= fib (S k).
Proof.
  induction k as [ | k [IH1 IH2] ]; [cbn; lia|].
  split; [exact IH2|]. rewrite fib_unfold. lia.
Qed.

Lemma fib_monotone (n m : nat) : (n <= m)%nat -> fib n <= fib m.
Proof.
  induction 1 as [ | m Hle IH ]; [lia|].
  destruct m as [ | m ]; [assert (n = 0%nat) by lia; subst; cbn; lia|].
  rewrite fib_unfold. pose proof (fib_nonneg m). lia.
Qed.

Lemma workerIterations_from (fuel k : nat) :
  forall (i : nat) (st : WorkerState),
    w_fibIndex st = Z.of_nat i ->
    (i + k <= fuel)%nat ->
    exists st',
      workerIterations fuel k st
      = Some (st', map (fun j => {| fibIndex := 1; lastFibonacciNumber := fib j |}) (seq i k)) /\
      w_fibIndex st' = Z.of_nat (i + k) /\
      w_localFibIndex st' = w_localFibIndex st + Z.of_nat k /\
      (0 < k -> w_lastFibNumber st' = fib (i + k - 1))%nat.
Proof.
  induction k as [ | k IH ]; intros i st Hi Hfuel.
  - exists st. cbn [workerIterations seq map]. repeat split; lia.
  - cbn [workerIterations]. unfold workerLoop.
    rewrite Hi, (calculateFibonacci_fib i fuel) by lia.
    destruct (IH (S i)
                {| w_fibIndex := Z.of_nat i + 1; w_lastFibNumber := fib i;
                   w_localFibIndex := w_localFibIndex st + 1 |})
      as (st' & Hrun & Hidx & Hloc & Hlast).
    { cbn [w_fibIndex]. lia. }
    { lia. }
    rewrite Hrun. exists st'. cbn [seq map]. split; [reflexivity|].
    cbn [w_localFibIndex] in Hloc.
    split; [rewrite Hidx; f_equal; lia|]. split; [lia|].
    intros _. destruct k as [ | k ].
    + cbn [workerIterations] in Hrun. injection Hrun as <-. cbn [w_lastFibNumber].
      f_equal. lia.
    + rewrite Hlast by lia. f_equal. lia.
Qed.

(** X7: a worker started from scratch that has run workerLoop k times has
    posted k messages, each counting one calculation, carrying in order the
    Fibonacci numbers of the indices 0, 1, ..., k - 1; its two counters
    both stand at k. *)
Theorem worker_posts_fibonacci_sequence (fuel k : nat) :
  (k <= fuel)%nat ->
  exists st,
    workerIterations fuel k workerStart
    = Some (st, map (fun j => {| fibIndex := 1; lastFibonacciNumber := fib j |}) (seq 0 k)) /\
    w_fibIndex st = Z.of_nat k /\
    w_localFibIndex st = Z.of_nat k.
Proof.
  intros Hfuel.
  destruct (workerIterations_from fuel k 0 workerStart eq_refl ltac:(lia))
    as (st & Hrun & Hidx & Hloc & _).
  exists st. split; [exact Hrun|]. split; [exact Hidx|].
  rewrite Hloc. cbn [workerStart w_localFibIndex]. lia.
Qed.

Lemma worker_posts_fibonacci_sequence_witness :
  exists st,
    workerIterations 8 5 workerStart
    = Some (st, map (fun j => {| fibIndex := 1; lastFibonacciNumber := fib j |}) (seq 0 5)) /\
    w_fibIndex st = 5 /\
    w_localFibIndex st = 5.
Proof.
  apply (worker_posts_fibonacci_sequence 8 5). lia.
Defined.

(** ** The closure state of a run *)

Section RunFacts.

Variable finalConfig : Config.
Variable systemInfo : SystemInfo.
Variable startTime : Z.

Lemma onMemoryCheck_within_limit (st : RunState) (cur again : MemoryReading) :
  overLimit finalConfig (rss cur) = false ->
  onMemoryCheck finalConfig st cur again = inl (recordPeak st cur again).
Proof.
  intros H. unfold onMemoryCheck, recordPeak. rewrite H.
  destruct (rss cur >? peakRSSBytes st); reflexivity.
Qed.

(** A completed run is the timer callback applied to the settled state. *)
Lemma dispatch_completed_settled (run : Z) (evs : list event) :
  forall (st : RunState) (r : RunResult),
    dispatch finalConfig systemInfo startTime run st evs = Some (Completed r) ->
    exists endTime finalMemory timestamp,
      r = onTimer finalConfig systemInfo startTime run (settle st evs)
            endTime finalMemory timestamp.
Proof.
  induction evs as [ | ev rest IH ]; intros st r H; [discriminate|].
  destruct ev as [w data | w | w code | cur again | t fm ts];
    cbn [dispatch handle] in H; cbn [settle].
  - apply IH, H.
  - apply IH, H.
  - apply IH, H.
  - destruct (overLimit finalConfig (rss cur)) eqn:Hover.
    + unfold onMemoryCheck in H. rewrite Hover in H. discriminate.
    + rewrite (onMemoryCheck_within_limit st cur again Hover) in H. apply IH, H.
  - injection H as <-. exists t, fm, ts. reflexivity.
Qed.

Lemma settle_maxFibNumber (evs : list event) :
  forall st,
    maxFibNumber (settle st evs) = fold_left Z.max (reportedValues evs) (maxFibNumber st).
Proof.
  induction evs as [ | ev rest IH ]; intros st; [reflexivity|].
  destruct ev as [w data | w | w code | cur again | t fm ts];
    cbn [settle reportedValues fold_left]; try reflexivity.
  - rewrite IH. cbn [onMessage maxFibNumber]. f_equal.
    destruct (Z.gtb_spec (lastFibonacciNumber data) (maxFibNumber st)); lia.
  - rewrite IH. reflexivity.
  - rewrite IH. reflexivity.
  - rewrite IH. unfold recordPeak.
    destruct (rss cur >? peakRSSBytes st); reflexivity.
Qed.

Lemma fold_max_bounds (values : list Z) :
  forall start,
    start <= fold_left Z.max values start /\
    (forall v, In v values -> v <= fold_left Z.max values start) /\
    (fold_left Z.max values start = start \/ In (fold_left Z.max values start) values).
Proof.
  induction values as [ | v rest IH ]; intros start; cbn [fold_left In].
  - split; [lia|]. split; [intros v []|]. left. reflexivity.
  - destruct (IH (Z.max start v)) as (Hge & Hall & Hin).
    split; [lia|]. split.
    + intros u [<- | Hu]; [lia | apply Hall, Hu].
    + destruct Hin as [Heq | Hin]; [| right; right; exact Hin].
      destruct (Z.max_spec start v) as [[_ Hm] | [_ Hm]]; rewrite Hm in Heq |- *.
      * right. left. symmetry. exact Heq.
      * left. exact Heq.
Qed.

End RunFacts.

(** X8: the lastFibonacciNumber of a completed run is the largest value
    any message carried before the timer fired, and 0 if no message carried
    a positive value: it is at least 0 and at least every reported value,
    and it is 0 or one of the reported values. *)
Theorem lastFibonacciNumber_is_largest_report (finalConfig : Config)
    (systemInfo : SystemInfo) (startTime runNumber : Z) (input : RunInput) (r : RunResult) :
  runSingleBenchmark finalConfig systemInfo startTime runNumber input = Some (Completed r) ->
  rr_lastFibonacciNumber r = fold_left Z.max (reportedValues (events input)) 0 /\
  0 <= rr_lastFibonacciNumber r /\
  (forall v, In v (reportedValues (events input)) -> v <= rr_lastFibonacciNumber r) /\
  (rr_lastFibonacciNumber r = 0 \/
   In (rr_lastFibonacciNumber r) (reportedValues (events input))).
Proof.
  intros Hrun. unfold runSingleBenchmark in Hrun.
  destruct (dispatch_completed_settled _ _ _ _ _ _ _ Hrun) as (t & fm & ts & ->).
  cbn [onTimer rr_lastFibonacciNumber].
  rewrite settle_maxFibNumber. cbn [initialState maxFibNumber].
  split; [reflexivity|]. apply fold_max_bounds.
Qed.

Lemma lastFibonacciNumber_is_largest_report_witness :
  exists r,
    runSingleBenchmark (sampleConfig 1 None) sampleSystem 0 1 oneReportRun
      = Some (Completed r) /\
    rr_lastFibonacciNumber r = fold_left Z.max (reportedValues (events oneReportRun)) 0 /\
    0 <= rr_lastFibonacciNumber r.
Proof.
  eexists. split; [reflexivity|].
  pose proof (lastFibonacciNumber_is_largest_report (sampleConfig 1 None) sampleSystem 0 1
                oneReportRun _ eq_refl) as (H1 & H2 & _).
  split; [exact H1 | exact H2].
Defined.

Lemma settle_fromWorkers (evs : list event) :
  forall (next : nat -> nat) (reached : nat) (st : RunState),
    fromWorkers next evs ->
    maxFibNumber st = fib (Nat.pred reached) ->
    maxFibNumber (settle st evs) = fib (Nat.pred (reachedIndex next reached evs)) /\
    totalFibIndex (settle st evs) = totalFibIndex st + messageCount evs.
Proof.
  induction evs as [ | ev rest IH ]; intros next reached st Hw Hmax.
  - cbn [settle reachedIndex messageCount]. split; [exact Hmax | lia].
  - destruct ev as [w data | w | w code | cur again | t fm ts];
      cbn [fromWorkers settle reachedIndex messageCount] in *.
    + destruct Hw as [-> Hw].
      destruct (IH (bump next w) (Nat.max reached (S (next w))) (onMessage st
                  {| fibIndex := 1; lastFibonacciNumber := fib (next w) |}) Hw)
        as [H1 H2].
      { cbn [onMessage maxFibNumber lastFibonacciNumber]. rewrite Hmax.
        replace (Nat.pred (Nat.max reached (S (next w))))
          with (Nat.max (Nat.pred reached) (next w)) by lia.
        destruct (Nat.le_ge_cases (Nat.pred reached) (next w)) as [Hle | Hge].
        - pose proof (fib_monotone _ _ Hle).
          rewrite Nat.max_r by exact Hle.
          destruct (Z.gtb_spec (fib (next w)) (fib (Nat.pred reached))); lia.
        - pose proof (fib_monotone _ _ Hge).
          rewrite Nat.max_l by exact Hge.
          destruct (Z.gtb_spec (fib (next w)) (fib (Nat.pred reached))); lia. }
      split; [exact H1|]. rewrite H2. cbn [onMessage totalFibIndex fibIndex]. lia.
    + apply (IH next reached (onError st) Hw Hmax).
    + apply (IH next reached (onExit st code) Hw Hmax).
    + assert (Ht : totalFibIndex (recordPeak st cur again) = totalFibIndex st)
        by (unfold recordPeak; destruct (rss cur >? peakRSSBytes st); reflexivity).
      assert (Hm : maxFibNumber (recordPeak st cur again) = maxFibNumber st)
        by (unfold recordPeak; destruct (rss cur >? peakRSSBytes st); reflexivity).
      rewrite <- Ht. apply (IH next reached (recordPeak st cur again) Hw).
      rewrite Hm. exact Hmax.
    + split; [exact Hmax | lia].
Qed.

(** X9: when the messages of a run are those of workers running
    workerLoop (each worker reporting the Fibonacci numbers of indices
    0, 1, 2, ... in order, one calculation per message, the workers
    interleaved in any way), a completed run reports as
    totalFibonacciIndex the number of messages received before the timer
    fired and as lastFibonacciNumber the Fibonacci number of the highest
    index any single worker reached. *)
Theorem run_of_workers_totals (finalConfig : Config) (systemInfo : SystemInfo)
    (startTime runNumber : Z) (input : RunInput) (r : RunResult) :
  fromWorkers (fun _ => 0%nat) (events input) ->
  runSingleBenchmark finalConfig systemInfo startTime runNumber input = Some (Completed r) ->
  totalFibonacciIndex r = messageCount (events input) /\
  rr_lastFibonacciNumber r
  = fib (Nat.pred (reachedIndex (fun _ => 0%nat) 0 (events input))).
Proof.
  intros Hw Hrun. unfold runSingleBenchmark in Hrun.
  destruct (dispatch_completed_settled _ _ _ _ _ _ _ Hrun) as (t & fm & ts & ->).
  cbn [onTimer rr_lastFibonacciNumber totalFibonacciIndex].
  destruct (settle_fromWorkers (events input) (fun _ => 0%nat) 0
              (initialState systemInfo input) Hw eq_refl) as [H1 H2].
  split; [rewrite H2; reflexivity | exact H1].
Qed.

Lemma run_of_workers_totals_witness :
  exists r,
    fromWorkers (fun _ => 0%nat) (events twoWorkerRun) /\
    runSingleBenchmark (sampleConfig 1 None) sampleSystem 0 1 twoWorkerRun
      = Some (Completed r) /\
    totalFibonacciIndex r = 6 /\
    rr_lastFibonacciNumber r = fib 3.
Proof.
  assert (Hw : fromWorkers (fun _ => 0%nat) (events twoWorkerRun))
    by (cbn; repeat split).
  eexists. split; [exact Hw|]. split; [reflexivity|].
  exact (run_of_workers_totals (sampleConfig 1 None) sampleSystem 0 1 twoWorkerRun _
           Hw eq_refl).
Defined.

(** ** The peak of the memory readings *)

Lemma settle_peak (evs : list event) :
  forall st,
    steadyReadings evs ->
    mu_rss (peakMemoryUsage st) = formatBytes (peakRSSBytes st) ->
    peakRSSBytes (settle st evs) = peakOf (peakRSSBytes st) evs /\
    mu_rss (peakMemoryUsage (settle st evs)) = formatBytes (peakOf (peakRSSBytes st) evs).
Proof.
  induction evs as [ | ev rest IH ]; intros st Hs Hst.
  - cbn [settle peakOf]. split; [reflexivity | exact Hst].
  - destruct ev as [w data | w | w code | cur again | t fm ts];
      cbn [steadyReadings settle peakOf] in *.
    + apply (IH (onMessage st data) Hs Hst).
    + apply (IH (onError st) Hs Hst).
    + apply (IH (onExit st code) Hs Hst).
    + destruct Hs as [Hagain Hs].
      assert (Hpeak : peakRSSBytes (recordPeak st cur again)
                      = Z.max (peakRSSBytes st) (rss cur)).
      { unfold recordPeak. destruct (Z.gtb_spec (rss cur) (peakRSSBytes st));
          cbn [peakRSSBytes]; lia. }
      rewrite <- Hpeak. apply IH; [exact Hs|].
      unfold recordPeak. destruct (rss cur >? peakRSSBytes st); [| exact Hst].
      cbn [peakMemoryUsage peakRSSBytes getMemoryUsage mu_rss]. rewrite Hagain. reflexivity.
    + split; [reflexivity | exact Hst].
Qed.

(** X10: when the readings are steady (the two readings taken at the start
    of the run show the same resident size, and so do the two readings of
    every sample), the peak text of a completed run is the formatted
    largest resident size among the initial reading and the samples taken
    before the timer fired. *)
Theorem peak_text_is_largest_sample (finalConfig : Config) (systemInfo : SystemInfo)
    (startTime runNumber : Z) (input : RunInput) (r : RunResult) :
  rss (firstUsage input) = rss (firstRSS input) ->
  steadyReadings (events input) ->
  runSingleBenchmark finalConfig systemInfo startTime runNumber input = Some (Completed r) ->
  mu_rss (peakMemory r) = formatBytes (peakOf (rss (firstRSS input)) (events input)) /\
  rss (firstRSS input) <= peakOf (rss (firstRSS input)) (events input).
Proof.
  intros Hfirst Hs Hrun. unfold runSingleBenchmark in Hrun.
  destruct (dispatch_completed_settled _ _ _ _ _ _ _ Hrun) as (t & fm & ts & ->).
  cbn [onTimer peakMemory].
  destruct (settle_peak (events input) (initialState systemInfo input) Hs) as [_ H].
  { cbn [initialState peakMemoryUsage peakRSSBytes getMemoryUsage mu_rss].
    rewrite Hfirst. reflexivity. }
  split; [exact H|].
  clear. generalize (rss (firstRSS input)).
  induction (events input) as [ | ev rest IH ]; intros start; cbn [peakOf]; [lia|].
  destruct ev; try apply IH; try lia.
  specialize (IH (Z.max start (rss currentMemory))). lia.
Qed.

Lemma peak_text_is_largest_sample_witness :
  exists r,
    rss (firstUsage twoWorkerRun) = rss (firstRSS twoWorkerRun) /\
    steadyReadings (events twoWorkerRun) /\
    runSingleBenchmark (sampleConfig 1 None) sampleSystem 0 1 twoWorkerRun
      = Some (Completed r) /\
    mu_rss (peakMemory r) = formatBytes (70 * 1024 * 1024).
Proof.
  assert (H1 : rss (firstUsage twoWorkerRun) = rss (firstRSS twoWorkerRun)) by reflexivity.
  assert (H2 : steadyReadings (events twoWorkerRun)) by (cbn; repeat split).
  eexists. split; [exact H1|]. split; [exact H2|]. split; [reflexivity|].
  exact (proj1 (peak_text_is_largest_sample (sampleConfig 1 None) sampleSystem 0 1
                  twoWorkerRun _ H1 H2 eq_refl)).
Defined.

(** ** How a run ends *)

Section RunEnds.

Variable finalConfig : Config.
Variable systemInfo : SystemInfo.
Variable startTime : Z.

Lemma dispatch_failed (run : Z) (evs : list event) :
  forall (st : RunState) (reason : string),
    dispatch finalConfig systemInfo startTime run st evs = Some (Failed reason) ->
    reason = "RAM_LIMIT_EXCEEDED"%string /\
    exists pre cur again post,
      evs = pre ++ memoryCheck cur again :: post /\
      undecided finalConfig pre = true /\
      overLimit finalConfig (rss cur) = true.
Proof.
  induction evs as [ | ev rest IH ]; intros st reason H; [discriminate|].
  assert (Hstep : forall st',
            dispatch finalConfig systemInfo startTime run st' rest = Some (Failed reason) ->
            isTimer ev = false -> isOverLimit finalConfig ev = false ->
            reason = "RAM_LIMIT_EXCEEDED"%string /\
            exists pre cur again post,
              ev :: rest = pre ++ memoryCheck cur again :: post /\
              undecided finalConfig pre = true /\
              overLimit finalConfig (rss cur) = true).
  { intros st' H' Ht Ho.
    destruct (IH st' reason H') as (Hr & pre & cur & again & post & -> & Hpre & Hover).
    split; [exact Hr|]. exists (ev :: pre), cur, again, post.
    split; [reflexivity|]. split; [| exact Hover].
    cbn [undecided forallb]. rewrite Ht, Ho. exact Hpre. }
  destruct ev as [w data | w | w code | cur again | t fm ts]; cbn [dispatch handle] in H.
  - apply (Hstep _ H); reflexivity.
  - apply (Hstep _ H); reflexivity.
  - apply (Hstep _ H); reflexivity.
  - destruct (overLimit finalConfig (rss cur)) eqn:Hover.
    + unfold onMemoryCheck in H. rewrite Hover in H. injection H as <-.
      split; [reflexivity|]. exists [], cur, again, rest.
      split; [reflexivity|]. split; [reflexivity | exact Hover].
    + rewrite (onMemoryCheck_within_limit finalConfig st cur again Hover) in H.
      apply (Hstep _ H); [reflexivity | exact Hover].
  - discriminate.
Qed.

Lemma dispatch_pending (run : Z) (evs : list event) :
  forall st : RunState,
    dispatch finalConfig systemInfo startTime run st evs = None <->
    undecided finalConfig evs = true.
Proof.
  induction evs as [ | ev rest IH ]; intros st; [split; reflexivity|].
  cbn [undecided forallb].
  destruct ev as [w data | w | w code | cur again | t fm ts];
    cbn [dispatch handle isTimer isOverLimit negb andb]; try apply IH.
  - destruct (overLimit finalConfig (rss cur)) eqn:Hover.
    + unfold onMemoryCheck. rewrite Hover. cbn. split; discriminate.
    + rewrite (onMemoryCheck_within_limit finalConfig st cur again Hover). apply IH.
  - split; discriminate.
Qed.

Lemma dispatch_resolved_prefix (run : Z) (ev : event) (post post' : list event) :
  isTimer ev || isOverLimit finalConfig ev = true ->
  forall (pre : list event) (st : RunState),
    dispatch finalConfig systemInfo startTime run st (pre ++ ev :: post)
    = dispatch finalConfig systemInfo startTime run st (pre ++ ev :: post').
Proof.
  intros Hev pre.
  induction pre as [ | e rest IH ]; intros st; cbn [app dispatch].
  - destruct ev as [w data | w | w code | cur again | t fm ts]; try discriminate.
    + cbn [isTimer isOverLimit orb] in Hev. cbn [handle]. unfold onMemoryCheck.
      rewrite Hev. reflexivity.
    + reflexivity.
  - destruct (handle finalConfig systemInfo startTime run st e); [apply IH | reflexivity].
Qed.

Lemma undecided_noTimer (evs : list event) :
  undecided finalConfig evs = true -> noTimer evs = true.
Proof.
  induction evs as [ | ev rest IH ]; [reflexivity|].
  cbn [undecided noTimer forallb]. intros H.
  apply andb_prop in H as [Hev Hrest]. apply andb_prop in Hev as [Ht _].
  rewrite Ht. exact (IH Hrest).
Qed.

Lemma no_limit_undecided (evs : list event) :
  maxRamMB finalConfig = None -> undecided finalConfig evs = noTimer evs.
Proof.
  intros Hnone. induction evs as [ | ev rest IH ]; [reflexivity|].
  cbn [undecided noTimer forallb]. fold (undecided finalConfig rest). fold (noTimer rest).
  rewrite IH. f_equal.
  destruct ev; cbn [isOverLimit isTimer negb andb]; try reflexivity.
  unfold overLimit, MAX_RAM_MB. rewrite Hnone. reflexivity.
Qed.

End RunEnds.

(** X11: a run fails exactly when a memory sample taken before the timer
    fired is over the limit, and the only reason a run ever fails with is
    RAM_LIMIT_EXCEEDED. *)
Theorem run_fails_exactly_on_over_limit (finalConfig : Config) (systemInfo : SystemInfo)
    (startTime runNumber : Z) (input : RunInput) (reason : string) :
  runSingleBenchmark finalConfig systemInfo startTime runNumber input = Some (Failed reason)
  <->
  reason = "RAM_LIMIT_EXCEEDED"%string /\
  exists pre cur again post,
    events input = pre ++ memoryCheck cur again :: post /\
    noTimer pre = true /\
    overLimit finalConfig (rss cur) = true.
Proof.
  unfold runSingleBenchmark. split.
  - intros H.
    destruct (dispatch_failed _ _ _ _ _ _ _ H) as (Hr & pre & cur & again & post & He & Hp & Ho).
    split; [exact Hr|]. exists pre, cur, again, post.
    split; [exact He|]. split; [exact (undecided_noTimer _ _ Hp) | exact Ho].
  - intros (-> & pre & cur & again & post & -> & Hp & Ho).
    apply dispatch_over_limit; assumption.
Qed.

Lemma run_fails_exactly_on_over_limit_witness :
  runSingleBenchmark (sampleConfig 3 (Some 100)) sampleSystem 0 1 overLimitRun
  = Some (Failed "RAM_LIMIT_EXCEEDED").
Proof.
  apply (proj2 (run_fails_exactly_on_over_limit (sampleConfig 3 (Some 100)) sampleSystem
                  0 1 overLimitRun "RAM_LIMIT_EXCEEDED")).
  split; [reflexivity|].
  exists (repeat (message 0 sampleReport) 10
          ++ [memoryCheck (reading (60 * 1024 * 1024)) (reading (60 * 1024 * 1024))]
          ++ repeat (message 1 sampleReport) 10),
    (reading (120 * 1024 * 1024)), (reading (120 * 1024 * 1024)),
    [timer 2000000000 (reading (50 * 1024 * 1024)) "2024-01-15T10:30:02.000Z"].
  split; [reflexivity|]. split; reflexivity.
Defined.

(** X12: the promise of a run stays pending exactly when no timer event
    arrives and no sample is over the limit; in particular a run whose
    events contain the timer always resolves. *)
Theorem run_pending_exactly_when_undecided (finalConfig : Config)
    (systemInfo : SystemInfo) (startTime runNumber : Z) (input : RunInput) :
  (runSingleBenchmark finalConfig systemInfo startTime runNumber input = None <->
   undecided finalConfig (events input) = true) /\
  (noTimer (events input) = false ->
   exists result,
     runSingleBenchmark finalConfig systemInfo startTime runNumber input = Some result).
Proof.
  unfold runSingleBenchmark.
  split; [apply dispatch_pending|].
  intros Ht.
  destruct (dispatch finalConfig systemInfo startTime runNumber
              (initialState systemInfo input) (events input)) as [result | ] eqn:Hd.
  - exists result. reflexivity.
  - apply dispatch_pending, undecided_noTimer in Hd. congruence.
Qed.

(** X13: without a memory limit, no run ever fails: it completes as soon
    as the timer fires, and it stays pending when the timer never fires. *)
Theorem run_without_limit_completes (finalConfig : Config) (systemInfo : SystemInfo)
    (startTime runNumber : Z) (input : RunInput) :
  maxRamMB finalConfig = None ->
  (forall reason,
     runSingleBenchmark finalConfig systemInfo startTime runNumber input
     <> Some (Failed reason)) /\
  (noTimer (events input) = false ->
   exists r,
     runSingleBenchmark finalConfig systemInfo startTime runNumber input
     = Some (Completed r)) /\
  (noTimer (events input) = true ->
   runSingleBenchmark finalConfig systemInfo startTime runNumber input = None).
Proof.
  intros Hnone.
  assert (Hnever : forall reason,
            runSingleBenchmark finalConfig systemInfo startTime runNumber input
            <> Some (Failed reason)).
  { intros reason H. unfold runSingleBenchmark in H.
    destruct (dispatch_failed _ _ _ _ _ _ _ H) as (_ & pre & cur & again & post & _ & _ & Ho).
    unfold overLimit, MAX_RAM_MB in Ho. rewrite Hnone in Ho. discriminate. }
  assert (Hp : runSingleBenchmark finalConfig systemInfo startTime runNumber input = None
               <-> noTimer (events input) = true).
  { rewrite <- (no_limit_undecided finalConfig (events input) Hnone).
    apply dispatch_pending. }
  split; [exact Hnever|]. split.
  - intros Ht.
    destruct (runSingleBenchmark finalConfig systemInfo startTime runNumber input)
      as [[reason | r] | ] eqn:Hrun.
    + exfalso. exact (Hnever reason eq_refl).
    + exists r. reflexivity.
    + pose proof (proj1 Hp eq_refl). congruence.
  - intros Ht. apply Hp. exact Ht.
Qed.

Lemma run_without_limit_completes_witness :
  maxRamMB (sampleConfig 1 None) = None /\
  noTimer (events twoWorkerRun) = false /\
  exists r,
    runSingleBenchmark (sampleConfig 1 None) sampleSystem 0 1 twoWorkerRun
    = Some (Completed r).
Proof.
  assert (H : maxRamMB (sampleConfig 1 None) = None) by reflexivity.
  split; [exact H|]. split; [reflexivity|].
  apply (run_without_limit_completes (sampleConfig 1 None) sampleSystem 0 1 twoWorkerRun H).
  reflexivity.
Defined.

(** X14: what arrives after the event that resolved the promise (a stale
    timer, late messages, the exits of terminated workers) never changes
    the outcome of the run: two event lists that agree up to and including
    a timer event or an over-limit sample give the same outcome. *)
Theorem later_events_do_not_matter (finalConfig : Config) (systemInfo : SystemInfo)
    (startTime runNumber : Z) (input input' : RunInput)
    (pre post post' : list event) (ev : event) :
  firstUsage input' = firstUsage input ->
  firstRSS input' = firstRSS input ->
  events input = pre ++ ev :: post ->
  events input' = pre ++ ev :: post' ->
  isTimer ev || isOverLimit finalConfig ev = true ->
  runSingleBenchmark finalConfig systemInfo startTime runNumber input'
  = runSingleBenchmark finalConfig systemInfo startTime runNumber input.
Proof.
  intros Hu Hr He He' Hev. unfold runSingleBenchmark, initialState.
  rewrite He, He', Hu, Hr.
  apply dispatch_resolved_prefix. exact Hev.
Qed.

Lemma later_events_do_not_matter_witness :
  runSingleBenchmark (sampleConfig 1 None) sampleSystem 0 1
    (sampleInput 5 [message 0 sampleReport;
                    timer 2000000000 (reading (50 * 1024 * 1024)) "2024-01-15T10:30:02.000Z";
                    exit 0 1; message 1 sampleReport])
  = runSingleBenchmark (sampleConfig 1 None) sampleSystem 0 1 oneReportRun.
Proof.
  apply (later_events_do_not_matter (sampleConfig 1 None) sampleSystem 0 1 oneReportRun _
           [message 0 sampleReport] [] [exit 0 1; message 1 sampleReport]
           (timer 2000000000 (reading (50 * 1024 * 1024)) "2024-01-15T10:30:02.000Z"));
    reflexivity.
Defined.

Lemma run_pending_exactly_when_undecided_witness :
  undecided (sampleConfig 1 (Some 100)) [message 0 sampleReport; exit 0 0] = true /\
  runSingleBenchmark (sampleConfig 1 (Some 100)) sampleSystem 0 1
    (sampleInput 0 [message 0 sampleReport; exit 0 0]) = None.
Proof.
  assert (H : undecided (sampleConfig 1 (Some 100)) [message 0 sampleReport; exit 0 0] = true)
    by reflexivity.
  split; [exact H|].
  apply (proj1 (run_pending_exactly_when_undecided (sampleConfig 1 (Some 100)) sampleSystem
                  0 1 (sampleInput 0 [message 0 sampleReport; exit 0 0]))).
  exact H.
Defined.

(** ** The sequence of runs *)

Section Sequence.

Variable finalConfig : Config.
Variable systemInfo : SystemInfo.
Variable startTime : Z.
Variable world : Z -> RunInput.

(** The loop stops at the first run that fails; before it every run
    completed and its result was collected. *)
Lemma sequenceRuns_shape (pending : list Z) :
  forall allRuns called waits rs cs ws failed,
    sequenceRuns finalConfig systemInfo startTime world pending allRuns called waits
      = Some (rs, cs, ws, failed) ->
    exists done collected,
      rs = allRuns ++ collected /\
      Forall2 (completes finalConfig systemInfo startTime world) done collected /\
      ws = (waits + waitsAfter finalConfig done)%nat /\
      ((failed = None /\ pending = done /\ cs = called ++ done) \/
       (exists k later,
          failed = Some (k, "RAM_LIMIT_EXCEEDED"%string) /\
          pending = done ++ k :: later /\
          cs = called ++ done ++ [k])).
Proof.
  induction pending as [ | run later IH ]; intros allRuns called waits rs cs ws failed H.
  - cbn [sequenceRuns] in H. injection H as <- <- <- <-.
    exists [], []. rewrite !app_nil_r. unfold waitsAfter. cbn.
    split; [reflexivity|]. split; [constructor|]. split; [lia|]. left. auto.
  - cbn [sequenceRuns] in H.
    destruct (runSingleBenchmark finalConfig systemInfo startTime run (world run))
      as [[reason | r] | ] eqn:Hrun; [| | discriminate].
    + injection H as <- <- <- <-.
      unfold runSingleBenchmark in Hrun.
      destruct (dispatch_failed _ _ _ _ _ _ _ Hrun) as [-> _].
      exists [], []. rewrite app_nil_r. unfold waitsAfter. cbn.
      split; [reflexivity|]. split; [constructor|]. split; [lia|].
      right. exists run, later. auto.
    + destruct (IH _ _ _ _ _ _ _ H) as (done & collected & -> & Hall & -> & Hend).
      exists (run :: done), (r :: collected).
      split; [rewrite <- app_assoc; reflexivity|].
      split; [constructor; assumption|].
      split.
      { unfold waitsAfter. cbn [filter]. destruct (run <? runs finalConfig); cbn [List.length]; lia. }
      destruct Hend as [(-> & -> & ->) | (k & later' & -> & -> & ->)].
      * left. rewrite <- app_assoc. auto.
      * right. exists k, later'. rewrite <- !app_assoc. auto.
Qed.

Lemma completes_runNumbers (done : list Z) (collected : list RunResult) :
  Forall2 (completes finalConfig systemInfo startTime world) done collected -> map runNumber collected = done.
Proof.
  induction 1 as [ | j r done collected Hj _ IH ]; [reflexivity|].
  cbn [map]. rewrite IH. f_equal.
  exact (completed_runNumber _ _ _ _ _ _ Hj).
Qed.

Lemma completes_totals (done : list Z) (collected : list RunResult) :
  Forall2 (completes finalConfig systemInfo startTime world) done collected ->
  map totalFibonacciIndex collected = map (fun run => reported (events (world run))) done.
Proof.
  induction 1 as [ | j r done collected Hj _ IH ]; [reflexivity|].
  cbn [map]. rewrite IH. f_equal.
  exact (totalFibonacciIndex_counts_messages _ _ _ _ _ _ Hj).
Qed.

End Sequence.

Lemma seq_prefix (done : list Z) :
  forall (start len : nat) (rest : list Z),
    map Z.of_nat (seq start len) = done ++ rest ->
    done = map Z.of_nat (seq start (List.length done)).
Proof.
  induction done as [ | d done IH ]; intros start len rest H; [reflexivity|].
  destruct len as [ | len ]; [discriminate|].
  cbn [seq map app] in H. injection H as <- H.
  cbn [List.length seq map]. f_equal. exact (IH _ _ _ H).
Qed.

Lemma sum_fold_left {A : Type} (f : A -> Z) (l : list A) :
  forall start, fold_left (fun sum x => sum + f x) l start
                = start + fold_right Z.add 0 (map f l).
Proof.
  induction l as [ | x l IH ]; intros start; cbn [fold_left map fold_right]; [lia|].
  rewrite IH. lia.
Qed.

Lemma waits_in_prefix (runCount : Z) (len : nat) :
  forall start : nat,
    List.length (filter (fun run => run <? runCount) (map Z.of_nat (seq start len)))
    = Nat.min len (Z.to_nat runCount - start).
Proof.
  induction len as [ | len IH ]; intros start; [reflexivity|].
  cbn [seq map filter]. specialize (IH (S start)).
  destruct (Z.ltb_spec (Z.of_nat start) runCount) as [Hlt | Hge].
  - cbn [List.length]. rewrite IH. lia.
  - rewrite IH. lia.
Qed.

(** X15: whatever happens in the runs, the report lists the results of
    the runs 1, 2, ..., m in this order for some m: a result is never
    skipped, repeated or reordered.  When no failure was logged, m is the
    configured number of runs (none when that number is not positive);
    when one was, it is RAM_LIMIT_EXCEEDED for run m + 1, the last run
    that was started, and m is below the configured number. *)
Theorem report_lists_consecutive_runs (finalConfig : Config) (systemInfo : SystemInfo)
    (startTime now : Z) (world : Z -> RunInput) (session : Session) :
  runAllBenchmarks finalConfig systemInfo startTime world now = Some session ->
  let m := List.length (individualRuns (report session)) in
  map runNumber (individualRuns (report session)) = map Z.of_nat (seq 1 m) /\
  completedRuns (benchmarkInfo (report session)) = Z.of_nat m /\
  Forall2 (completes finalConfig systemInfo startTime world)
    (map Z.of_nat (seq 1 m)) (individualRuns (report session)) /\
  ((failure session = None /\
    m = Z.to_nat (runs finalConfig) /\
    invoked session = map Z.of_nat (seq 1 m)) \/
   (failure session = Some (Z.of_nat (S m), "RAM_LIMIT_EXCEEDED"%string) /\
    Z.of_nat m < runs finalConfig /\
    invoked session = map Z.of_nat (seq 1 (S m)))).
Proof.
  unfold runAllBenchmarks.
  destruct (sequenceRuns finalConfig systemInfo startTime world (runNumbers finalConfig) [] [] 0)
    as [[[[rs cs] ws] failed] | ] eqn:Hseq; [| discriminate].
  intros H. injection H as <-.
  cbn [report aggregate individualRuns benchmarkInfo completedRuns failure invoked].
  destruct (sequenceRuns_shape _ _ _ _ _ _ _ _ _ _ _ _ Hseq)
    as (done & collected & -> & Hall & _ & Hend).
  cbn [app] in *.
  pose proof (completes_runNumbers _ _ _ _ _ _ Hall) as Hnum.
  pose proof (Forall2_length Hall) as Hlen.
  assert (Hdone : done = map Z.of_nat (seq 1 (List.length collected))).
  { rewrite <- Hlen. unfold runNumbers in Hend.
    destruct Hend as [(_ & Hp & _) | (k & later & _ & Hp & _)].
    - apply (seq_prefix done 1 (Z.to_nat (runs finalConfig)) []).
      rewrite app_nil_r. exact Hp.
    - apply (seq_prefix done 1 (Z.to_nat (runs finalConfig)) (k :: later)). exact Hp. }
  split; [rewrite Hnum; exact Hdone|]. split; [reflexivity|].
  split; [rewrite <- Hdone; exact Hall|].
  unfold runNumbers in Hend.
  destruct Hend as [(-> & Hp & ->) | (k & later & -> & Hp & ->)].
  - left. split; [reflexivity|].
    assert (Hm : List.length collected = Z.to_nat (runs finalConfig)).
    { rewrite <- Hlen, <- Hp, length_map, length_seq. reflexivity. }
    split; [exact Hm | rewrite <- Hdone; reflexivity].
  - right.
    assert (Hk : map Z.of_nat (seq 1 (Z.to_nat (runs finalConfig)))
                 = map Z.of_nat (seq 1 (List.length collected)) ++ k :: later)
      by (rewrite <- Hdone; exact Hp).
    assert (Hcount : (List.length collected < Z.to_nat (runs finalConfig))%nat).
    { apply (f_equal (@List.length Z)) in Hk.
      rewrite length_app, !length_map, !length_seq in Hk. cbn [List.length] in Hk. lia. }
    assert (Hkval : k = Z.of_nat (S (List.length collected))).
    { replace (Z.to_nat (runs finalConfig))
        with (List.length collected + S (Z.to_nat (runs finalConfig) - S (List.length collected)))%nat
        in Hk by lia.
      rewrite seq_app, map_app in Hk. apply app_inv_head in Hk.
      cbn [seq map] in Hk. injection Hk as Hk _. rewrite <- Hk. f_equal. lia. }
    subst k. split; [reflexivity|]. split; [lia|].
    rewrite Hdone. replace (S (List.length collected)) with (List.length collected + 1)%nat by lia.
    rewrite seq_app, map_app. cbn [seq map]. do 3 f_equal. lia.
Qed.

Lemma report_lists_consecutive_runs_witness :
  exists session,
    runAllBenchmarks (sampleConfig 3 (Some 100)) sampleSystem 0 abortingWorld 5000000000
      = Some session /\
    map runNumber (individualRuns (report session)) = [1] /\
    failure session = Some (2, "RAM_LIMIT_EXCEEDED"%string) /\
    invoked session = [1; 2].
Proof.
  destruct (runAllBenchmarks (sampleConfig 3 (Some 100)) sampleSystem 0 abortingWorld
              5000000000) as [session | ] eqn:Hrun; [| vm_compute in Hrun; discriminate].
  exists session. split; [reflexivity|].
  pose proof (report_lists_consecutive_runs _ _ _ _ _ _ Hrun) as (Hnum & _ & _ & Hend).
  assert (Hm : List.length (individualRuns (report session)) = 1%nat)
    by (injection Hrun as <-; vm_compute; reflexivity).
  rewrite Hm in Hnum, Hend. split; [exact Hnum|].
  destruct Hend as [(Hnone & Hcount & _) | (Hfail & _ & Hinv)].
  - vm_compute in Hcount. discriminate.
  - split; [exact Hfail | exact Hinv].
Defined.

(** X16: the 2-second wait between runs happens after every completed run
    except the last configured one, and never after a failed run: a session
    with m results waited min(m, runs - 1) times. *)
Theorem cooldown_after_each_completed_run_but_last (finalConfig : Config)
    (systemInfo : SystemInfo) (startTime now : Z) (world : Z -> RunInput)
    (session : Session) :
  runAllBenchmarks finalConfig systemInfo startTime world now = Some session ->
  cooldowns session
  = Nat.min (List.length (individualRuns (report session)))
            (Z.to_nat (runs finalConfig - 1)).
Proof.
  unfold runAllBenchmarks.
  destruct (sequenceRuns finalConfig systemInfo startTime world (runNumbers finalConfig) [] [] 0)
    as [[[[rs cs] ws] failed] | ] eqn:Hseq; [| discriminate].
  intros H. injection H as <-.
  cbn [report aggregate individualRuns cooldowns].
  destruct (sequenceRuns_shape _ _ _ _ _ _ _ _ _ _ _ _ Hseq)
    as (done & collected & -> & Hall & -> & Hend).
  cbn [app Nat.add].
  pose proof (Forall2_length Hall) as Hlen.
  assert (Hdone : done = map Z.of_nat (seq 1 (List.length done))).
  { unfold runNumbers in Hend.
    destruct Hend as [(_ & Hp & _) | (k & later & _ & Hp & _)].
    - apply (seq_prefix done 1 (Z.to_nat (runs finalConfig)) []).
      rewrite app_nil_r. exact Hp.
    - apply (seq_prefix done 1 (Z.to_nat (runs finalConfig)) (k :: later)). exact Hp. }
  unfold waitsAfter. rewrite Hdone, waits_in_prefix, Hlen. lia.
Qed.

Lemma cooldown_after_each_completed_run_but_last_witness :
  exists session,
    runAllBenchmarks (sampleConfig 2 None) sampleSystem 0 twoRunWorld 6000000000
      = Some session /\
    cooldowns session = 1%nat.
Proof.
  destruct (runAllBenchmarks (sampleConfig 2 None) sampleSystem 0 twoRunWorld 6000000000)
    as [session | ] eqn:Hrun; [| vm_compute in Hrun; discriminate].
  exists session. split; [reflexivity|].
  rewrite (cooldown_after_each_completed_run_but_last _ _ _ _ _ _ Hrun).
  injection Hrun as <-. vm_compute. reflexivity.
Defined.

(** X17: the total of the report is the sum of what the workers reported
    before the timer in the completed runs; the messages of a run that
    failed are not counted. *)
Theorem totalCalculations_sums_completed_runs (finalConfig : Config)
    (systemInfo : SystemInfo) (startTime now : Z) (world : Z -> RunInput)
    (session : Session) :
  runAllBenchmarks finalConfig systemInfo startTime world now = Some session ->
  totalCalculations (aggregatedResults (report session))
  = fold_right Z.add 0
      (map (fun run => reported (events (world run)))
         (map Z.of_nat (seq 1 (List.length (individualRuns (report session)))))).
Proof.
  unfold runAllBenchmarks.
  destruct (sequenceRuns finalConfig systemInfo startTime world (runNumbers finalConfig) [] [] 0)
    as [[[[rs cs] ws] failed] | ] eqn:Hseq; [| discriminate].
  intros H. injection H as <-.
  cbn [report aggregate individualRuns aggregatedResults totalCalculations].
  destruct (sequenceRuns_shape _ _ _ _ _ _ _ _ _ _ _ _ Hseq)
    as (done & collected & -> & Hall & _ & Hend).
  cbn [app].
  pose proof (Forall2_length Hall) as Hlen.
  assert (Hdone : done = map Z.of_nat (seq 1 (List.length collected))).
  { rewrite <- Hlen. unfold runNumbers in Hend.
    destruct Hend as [(_ & Hp & _) | (k & later & _ & Hp & _)].
    - apply (seq_prefix done 1 (Z.to_nat (runs finalConfig)) []).
      rewrite app_nil_r. exact Hp.
    - apply (seq_prefix done 1 (Z.to_nat (runs finalConfig)) (k :: later)). exact Hp. }
  rewrite sum_fold_left, (completes_totals _ _ _ _ _ _ Hall), <- Hdone. lia.
Qed.

Lemma totalCalculations_sums_completed_runs_witness :
  exists session,
    runAllBenchmarks (sampleConfig 3 (Some 100)) sampleSystem 0 abortingWorld 5000000000
      = Some session /\
    totalCalculations (aggregatedResults (report session)) = 3000.
Proof.
  destruct (runAllBenchmarks (sampleConfig 3 (Some 100)) sampleSystem 0 abortingWorld
              5000000000) as [session | ] eqn:Hrun; [| vm_compute in Hrun; discriminate].
  exists session. split; [reflexivity|].
  rewrite (totalCalculations_sums_completed_runs _ _ _ _ _ _ Hrun).
  injection Hrun as <-. vm_compute. reflexivity.
Defined.

(** ** Printed sizes *)

(** X18: formatBytes picks the largest unit that does not exceed the
    value (B below 1024, GB from 2^30 on) and, for KB, MB and GB, prints the
    count of hundredths of that unit nearest to the exact value, a tie going
    up.  The figure is at least 1.00; in KB and MB it can reach 1024.00. *)
Theorem formatBytes_nearest_hundredth (bytes : Z) :
  bytes <= 9007199254740992 ->
  (bytes < 1024 -> formatBytes bytes = {| figure := Whole bytes; suffix := B |}) /\
  (1024 <= bytes ->
   exists h,
     figure (formatBytes bytes) = Fixed2 false h /\
     unitBytes (suffix (formatBytes bytes)) <= bytes /\
     (suffix (formatBytes bytes) <> GB ->
      bytes < 1024 * unitBytes (suffix (formatBytes bytes))) /\
     - unitBytes (suffix (formatBytes bytes))
       < 2 * (h * unitBytes (suffix (formatBytes bytes)) - 100 * bytes)
       <= unitBytes (suffix (formatBytes bytes)) /\
     100 <= h /\
     (suffix (formatBytes bytes) <> GB -> h <= 102400)).
Proof.
  intros Hmax. split.
  - intros Hsmall. unfold formatBytes. rewrite !Z.geb_leb.
    destruct (Z.leb_spec (1024 * 1024 * 1024) bytes); [lia|].
    destruct (Z.leb_spec (1024 * 1024) bytes); [lia|].
    destruct (Z.leb_spec 1024 bytes); [lia|]. reflexivity.
  - intros Hbig.
    destruct (Z_lt_le_dec bytes (1024 * 1024)) as [Hkb | Hmb'].
    + rewrite (formatBytes_kilobytes bytes) by lia. cbn [figure suffix unitBytes].
      eexists. split; [reflexivity|].
      pose proof (Z.div_mod (200 * bytes + 1024) 2048 ltac:(lia)) as Hd.
      pose proof (Z.mod_pos_bound (200 * bytes + 1024) 2048 ltac:(lia)) as Hr.
      repeat split; try lia; intros _; lia.
    + destruct (Z_lt_le_dec bytes (1024 * 1024 * 1024)) as [Hmb | Hgb].
      * rewrite (formatBytes_megabytes bytes) by lia. cbn [figure suffix unitBytes].
        eexists. split; [reflexivity|].
        pose proof (Z.div_mod (200 * bytes + 1048576) 2097152 ltac:(lia)) as Hd.
        pose proof (Z.mod_pos_bound (200 * bytes + 1048576) 2097152 ltac:(lia)) as Hr.
        repeat split; try lia; intros _; lia.
      * rewrite (formatBytes_gigabytes bytes) by lia. cbn [figure suffix unitBytes].
        eexists. split; [reflexivity|].
        pose proof (Z.div_mod (200 * bytes + 1073741824) 2147483648 ltac:(lia)) as Hd.
        pose proof (Z.mod_pos_bound (200 * bytes + 1073741824) 2147483648 ltac:(lia)) as Hr.
        repeat split; try lia; intros Hne; congruence.
Qed.

Lemma formatBytes_nearest_hundredth_witness :
  1048575 <= 9007199254740992 /\
  1024 <= 1048575 /\
  exists h,
    figure (formatBytes 1048575) = Fixed2 false h /\
    unitBytes (suffix (formatBytes 1048575)) <= 1048575 /\
    (suffix (formatBytes 1048575) <> GB ->
     1048575 < 1024 * unitBytes (suffix (formatBytes 1048575))) /\
    - unitBytes (suffix (formatBytes 1048575))
      < 2 * (h * unitBytes (suffix (formatBytes 1048575)) - 100 * 1048575)
      <= unitBytes (suffix (formatBytes 1048575)) /\
    100 <= h /\
    (suffix (formatBytes 1048575) <> GB -> h <= 102400).
Proof.
  assert (H1 : 1048575 <= 9007199254740992) by lia.
  assert (H2 : 1024 <= 1048575) by lia.
  split; [exact H1|]. split; [exact H2|].
  exact (proj2 (formatBytes_nearest_hundredth 1048575 H1) H2).
Defined.

(** X19: getSystemInfo prints the total memory in GB whatever its size,
    as the count of hundredths of a GB nearest to the exact value; it is
    the text formatBytes gives exactly from 1 GB on, and below 5368710
    bytes it is 0.00 GB. *)
Theorem getSystemInfo_ram_in_gigabytes (os_hostname : string) (cpus : list CpuEntry)
    (totalMemoryBytes : Z) :
  1 <= totalMemoryBytes <= 9007199254740992 ->
  exists h,
    ram (getSystemInfo os_hostname cpus totalMemoryBytes)
      = {| figure := Fixed2 false h; suffix := GB |} /\
    - 1073741824 < 2 * (h * 1073741824 - 100 * totalMemoryBytes) <= 1073741824 /\
    (h = 0 <-> totalMemoryBytes < 5368710) /\
    (ram (getSystemInfo os_hostname cpus totalMemoryBytes) = formatBytes totalMemoryBytes
     <-> 1024 * 1024 * 1024 <= totalMemoryBytes).
Proof.
  intros Hb. unfold getSystemInfo. cbn [ram].
  rewrite (toFixed2_scaled_bytes totalMemoryBytes 30 (1024 * 1024 * 1024)%float)
    by (reflexivity || lia).
  change (2 ^ 30) with 1073741824. change (2 ^ (30 + 1)) with 2147483648.
  eexists. split; [reflexivity|].
  pose proof (Z.div_mod (200 * totalMemoryBytes + 1073741824) 2147483648 ltac:(lia)) as Hd.
  pose proof (Z.mod_pos_bound (200 * totalMemoryBytes + 1073741824) 2147483648 ltac:(lia)) as Hr.
  split; [lia|]. split; [lia|].
  split.
  - intros H. unfold formatBytes in H. rewrite !Z.geb_leb in H.
    destruct (Z.leb_spec (1024 * 1024 * 1024) totalMemoryBytes); [assumption|].
    destruct (Z.leb_spec (1024 * 1024) totalMemoryBytes); [discriminate|].
    destruct (Z.leb_spec 1024 totalMemoryBytes); discriminate.
  - intros H. rewrite (formatBytes_gigabytes totalMemoryBytes) by lia. reflexivity.
Qed.

Lemma getSystemInfo_ram_in_gigabytes_witness :
  1 <= 4 * 1024 * 1024 <= 9007199254740992 /\
  ram (getSystemInfo "host" fourCores (4 * 1024 * 1024))
    = {| figure := Fixed2 false 0; suffix := GB |}.
Proof.
  assert (H : 1 <= 4 * 1024 * 1024 <= 9007199254740992) by lia.
  split; [exact H|].
  destruct (getSystemInfo_ram_in_gigabytes "host" fourCores (4 * 1024 * 1024) H)
    as (h & -> & _ & Hz & _).
  f_equal. f_equal. apply Hz. lia.
Defined.

(** ** Scores that are not numbers *)

Lemma is_nan_true (x : float) : is_nan x = true -> x = nan.
Proof.
  intros H. apply Prim2SF_inj. change (Prim2SF nan) with S754_nan.
  unfold is_nan in H. rewrite FloatAxioms.eqb_spec in H.
  destruct (Prim2SF x) as [s | s | | s m e]; try reflexivity; exfalso;
    unfold SFeqb, SFcompare in H; destruct s;
    rewrite ?Z.compare_refl, ?Pos.compare_cont_refl in H; discriminate.
Qed.

Lemma nan_add (y : float) : (nan + y)%float = nan.
Proof. apply Prim2SF_inj. rewrite add_spec. reflexivity. Qed.

Lemma add_nan (x : float) : (x + nan)%float = nan.
Proof.
  apply Prim2SF_inj. rewrite add_spec.
  change (Prim2SF nan) with S754_nan.
  destruct (Prim2SF x) as [ [ | ] | [ | ] | | ]; reflexivity.
Qed.

Lemma max2_nan_left (number : float) : max2 nan number = nan.
Proof. reflexivity. Qed.

Lemma max2_nan_right (highest : float) : max2 highest nan = nan.
Proof.
  unfold max2. destruct (is_nan highest) eqn:E; [exact (is_nan_true _ E) | reflexivity].
Qed.

Lemma min2_nan_right (lowest : float) : min2 lowest nan = nan.
Proof.
  unfold min2. destruct (is_nan lowest) eqn:E; [exact (is_nan_true _ E) | reflexivity].
Qed.

Lemma fold_nan_absorbs {A : Type} (step : float -> A -> float) (l : list A) :
  (forall x, step nan x = nan) -> fold_left step l nan = nan.
Proof.
  intros Hleft. induction l as [ | x l IH ]; [reflexivity|].
  cbn [fold_left]. rewrite Hleft. exact IH.
Qed.

Lemma fold_nan_reached {A : Type} (step : float -> A -> float) (l : list A) (bad : A) :
  (forall x, step nan x = nan) ->
  (forall acc, step acc bad = nan) ->
  In bad l ->
  forall acc, fold_left step l acc = nan.
Proof.
  intros Hleft Hbad. induction l as [ | x l IH ]; intros Hin acc; [destruct Hin|].
  cbn [fold_left]. destruct Hin as [-> | Hin].
  - rewrite Hbad. apply fold_nan_absorbs. exact Hleft.
  - apply IH. exact Hin.
Qed.

(** X20: one run whose score is NaN (a run without any calculation has
    one) makes every score of the aggregate NaN: the average, the best, the
    worst and the variance. *)
Theorem nan_score_spoils_aggregate (finalConfig : Config) (startTime now : Z)
    (allRuns : list RunResult) (r : RunResult) :
  In r allRuns ->
  scoreOf r = nan ->
  averageScore (aggregatedResults (aggregate finalConfig startTime allRuns now)) = nan /\
  bestScore (aggregatedResults (aggregate finalConfig startTime allRuns now)) = nan /\
  worstScore (aggregatedResults (aggregate finalConfig startTime allRuns now)) = nan /\
  scoreVariance (aggregatedResults (aggregate finalConfig startTime allRuns now)) = nan.
Proof.
  intros Hin Hnan.
  cbn [aggregate aggregatedResults averageScore bestScore worstScore scoreVariance].
  assert (Hsum : fold_left (fun sum run => (sum + scoreOf run)%float) allRuns 0%float = nan).
  { apply (fold_nan_reached _ allRuns r); [intros x; apply nan_add | | exact Hin].
    intros acc. rewrite Hnan. apply add_nan. }
  assert (Hbest : Math_max (map scoreOf allRuns) = nan).
  { unfold Math_max.
    apply (fold_nan_reached _ (map scoreOf allRuns) (scoreOf r));
      [intros x; apply max2_nan_left | | apply in_map; exact Hin].
    intros acc. rewrite Hnan. apply max2_nan_right. }
  assert (Hworst : Math_min (map scoreOf allRuns) = nan).
  { unfold Math_min.
    apply (fold_nan_reached _ (map scoreOf allRuns) (scoreOf r));
      [intros x; reflexivity | | apply in_map; exact Hin].
    intros acc. rewrite Hnan. apply min2_nan_right. }
  rewrite Hsum, Hbest, Hworst, nan_div. repeat split; reflexivity.
Qed.

Lemma nan_score_spoils_aggregate_witness :
  exists r,
    runSingleBenchmark (sampleConfig 2 None) sampleSystem 0 2 idleRun = Some (Completed r) /\
    scoreOf r = nan /\
    forall first,
      bestScore (aggregatedResults (aggregate (sampleConfig 2 None) 0 [first; r] 6000000000))
      = nan.
Proof.
  destruct (runSingleBenchmark (sampleConfig 2 None) sampleSystem 0 2 idleRun)
    as [[reason | r] | ] eqn:Hrun; try (vm_compute in Hrun; discriminate).
  exists r. split; [reflexivity|].
  assert (Hnan : scoreOf r = nan).
  { vm_compute in Hrun. injection Hrun as <-. reflexivity. }
  split; [exact Hnan|]. intros first.
  apply (nan_score_spoils_aggregate (sampleConfig 2 None) 0 6000000000 [first; r] r).
  - right. left. reflexivity.
  - exact Hnan.
Defined.
